(** * ContentForge backend: the generation and recent-items endpoints

    A shallow embedding of [main.py] (the FastAPI handlers
    [generate_content] and [recent_generations], and the field constraints of
    the [GenerateRequest] model) and of the [Generation] model of
    [schemas.py], followed by the properties of the service's specification.

    Python values are modelled as the code has them:
    - [str] is a sequence of Unicode code points (slicing and [len] count
      code points, and the templates contain U+2022 and U+2014);
    - [float] is IEEE binary64, Rocq's primitive [float];
    - [int] is [Z];
    - a raised [Exception] is a value of [exn], and code that can raise
      returns an [outcome]. *)

From Stdlib Require Import List ZArith NArith Bool Ascii String Floats Lia.
From Stdlib Require Import DecimalString.
Import ListNotations.

Set Implicit Arguments.

(** ** Python strings *)

Module Py.

Definition char := N.
Definition str := list char.

(** An ASCII literal of the source, as code points. *)
Definition lit (s : string) : str :=
  map N_of_ascii (list_ascii_of_string s).
Arguments lit s%_string.

Definition char_eqb : char -> char -> bool := N.eqb.

Definition str_eq_dec : forall a b : str, {a = b} + {a <> b} :=
  list_eq_dec N.eq_dec.

Definition str_eqb (a b : str) : bool :=
  if str_eq_dec a b then true else false.

(** [len(s)] *)
Definition len {A} (l : list A) : Z := Z.of_nat (List.length l).

(** [str.isspace] on one code point: the characters CPython's
    [_PyUnicode_IsWhitespace] accepts.  [str.strip()] and [str.split()]
    without arguments use this set. *)
Definition isspace (c : char) : bool :=
  ((9 <=? c) && (c <=? 13) || (28 <=? c) && (c <=? 32)
   || (c =? 133) || (c =? 160) || (c =? 5760)
   || (8192 <=? c) && (c <=? 8202)
   || (c =? 8232) || (c =? 8233) || (c =? 8239) || (c =? 8287)
   || (c =? 12288))%N.

Fixpoint lstrip (s : str) : str :=
  match s with
  | [] => []
  | c :: s' => if isspace c then lstrip s' else s
  end.

Definition rstrip (s : str) : str := rev (lstrip (rev s)).

(** [s.strip()] *)
Definition strip (s : str) : str := rstrip (lstrip s).

(** [s.split()]: the maximal runs of non-whitespace characters, in order.
    [cur] is the current run, reversed. *)
Fixpoint split_from (cur : str) (s : str) : list str :=
  match s with
  | [] => match cur with [] => [] | _ => [rev cur] end
  | c :: s' =>
      if isspace c
      then match cur with
           | [] => split_from [] s'
           | _ => rev cur :: split_from [] s'
           end
      else split_from (c :: cur) s'
  end.

Definition split (s : str) : list str := split_from [] s.

(** [sep.join(parts)] *)
Fixpoint join (sep : str) (parts : list str) : str :=
  match parts with
  | [] => []
  | [p] => p
  | p :: ps => p ++ sep ++ join sep ps
  end.

(** [l[:k]] for a list or a string; a negative [k] counts from the end. *)
Definition slice_to {A} (k : Z) (l : list A) : list A :=
  if (k <? 0)%Z then firstn (Z.to_nat (len l + k)) l
  else firstn (Z.to_nat k) l.

(** [range(n)] *)
Definition range (n : Z) : list Z := map Z.of_nat (seq 0 (Z.to_nat n)).

(** [enumerate(l, start)] *)
Fixpoint enumerate {A} (l : list A) (start : Z) : list (Z * A) :=
  match l with
  | [] => []
  | x :: l' => (start, x) :: enumerate l' (start + 1)
  end.

(** [str(i)] for an [int]. *)
Definition str_of_int (i : Z) : str :=
  lit (NilZero.string_of_int (Z.to_int i)).

(** [d.get(k, default)] on a dict literal, as the list of its items. *)
Fixpoint dict_get {V} (d : list (str * V)) (k : str) (default : V) : V :=
  match d with
  | [] => default
  | (k', v) :: d' => if str_eq_dec k' k then v else dict_get d' k default
  end.

(** [s.endswith(t)] and [t in s]. *)
Fixpoint startswith (s t : str) {struct t} : bool :=
  match t, s with
  | [], _ => true
  | _ :: _, [] => false
  | b :: t', a :: s' => char_eqb a b && startswith s' t'
  end.

Definition endswith (s t : str) : bool := startswith (rev s) (rev t).

Fixpoint contains (s t : str) : bool :=
  startswith s t
  || match s with
     | [] => false
     | _ :: s' => contains s' t
     end.

(** [x or y] on strings: the empty string is falsy. *)
Definition or_else (x y : str) : str :=
  match x with [] => y | _ => x end.

End Py.

Import Py.

(** ** Exceptions *)

(** An instance of Python's [Exception], by class name and message. *)
Record exn := Exception { exn_class : string; exn_msg : string }.

Inductive outcome (A : Type) :=
| Return (a : A)
| Raise (e : exn).
Arguments Return {A} a.
Arguments Raise {A} e.

Definition bind {A B} (m : outcome A) (k : A -> outcome B) : outcome B :=
  match m with
  | Return a => k a
  | Raise e => Raise e
  end.

(** [try: body  except Exception: handler] *)
Definition try_except {A} (body : outcome A) (handler : exn -> A) : A :=
  match body with
  | Return a => a
  | Raise e => handler e
  end.

(** ** The request model ([main.py], [GenerateRequest]) *)

Record GenerateRequest := {
  prompt : str;
  tone : str;
  sentiment : str;
  length : str;
  creativity : float;
  variants : Z
}.

(** [Field(..., ge=lo, le=hi)] on a float and on an int. *)
Definition float_ge (v lo : float) : bool := PrimFloat.leb lo v.
Definition float_le (v hi : float) : bool := PrimFloat.leb v hi.
Definition float_gt (v lo : float) : bool := PrimFloat.ltb lo v.

Definition creativity_ok (c : float) : bool :=
  float_ge c 0x0p+0%float && float_le c 0x1p+0%float.

Definition variants_ok (v : Z) : bool := ((1 <=? v) && (v <=? 5))%Z.

(** ** The composer (the body of [generate_content] up to the persistence
    step) *)

Definition bullet : char := 8226%N.
Definition em_dash : char := 8212%N.

Definition tone_voice (payload : GenerateRequest) : str :=
  dict_get
    [ (lit "Professional", lit "Polished and concise.");
      (lit "Playful", lit "Light and witty.");
      (lit "Formal", lit "Respectful and structured.");
      (lit "Casual", lit "Friendly and direct.") ]
    (tone payload) (lit "Confident and clear.").

Definition sentiment_hint (payload : GenerateRequest) : str :=
  dict_get
    [ (lit "Positive", lit "Emphasize benefits and momentum.");
      (lit "Neutral", lit "Stay informative and balanced.");
      (lit "Urgent", lit "Use action-forward phrasing.") ]
    (sentiment payload) (lit "Stay helpful.").

Definition length_map : list (str * (Z * Z)) :=
  [ (lit "Short", (18, 26)%Z);
    (lit "Medium", (40, 60)%Z);
    (lit "Long", (80, 120)%Z) ].

Definition min_len (payload : GenerateRequest) : Z :=
  fst (dict_get length_map (length payload) (40, 60)%Z).

Definition max_len (payload : GenerateRequest) : Z :=
  snd (dict_get length_map (length payload) (40, 60)%Z).

Definition placeholder : str := lit "Your product or idea".

Definition base (payload : GenerateRequest) : str :=
  or_else (strip (prompt payload)) placeholder.

Definition guide (payload : GenerateRequest) : str :=
  tone payload ++ lit " " ++ [bullet] ++ lit " "
  ++ sentiment payload ++ lit " " ++ [bullet] ++ lit " "
  ++ length payload ++ lit ". "
  ++ tone_voice payload ++ lit " " ++ sentiment_hint payload.

Definition core (payload : GenerateRequest) : str :=
  base payload ++ lit " " ++ [em_dash]
  ++ lit " crafted with ContentForge to help you move faster.".

(** The 0.6 of the source is the binary64 value nearest to it. *)
Definition creativity_threshold : float := 0x1.3333333333333p-1%float.

Definition is_urgent (payload : GenerateRequest) : bool :=
  str_eqb (sentiment payload) (lit "Urgent").

Definition exclaim (payload : GenerateRequest) : str :=
  if is_urgent payload || float_gt (creativity payload) creativity_threshold
  then lit "!" else lit ".".

Definition call_to_action : str := lit " Take the next step today".

Definition suffix (payload : GenerateRequest) : str :=
  if is_urgent payload then call_to_action else [].

(** [text], as first assigned in the loop body. *)
Definition assembled (payload : GenerateRequest) : str :=
  core payload ++ lit " " ++ guide payload
  ++ exclaim payload ++ suffix payload.

Definition fillers : list str :=
  [ lit "Learn more."; lit "Discover why."; lit "Built for teams.";
    lit "Effortless."; lit "Reliable." ].

Definition word_count (text : str) : Z := len (split text).

(** The [if len(text.split()) < min_len] statement. *)
Definition pad (lo : Z) (text : str) : str :=
  if (word_count text <? lo)%Z
  then text ++ lit " "
       ++ join (lit " ")
            (slice_to (Z.max 0 (lo - word_count text)) fillers)
  else text.

(** One iteration of the loop: the string appended to [outputs].  The loop
    variable [i] is bound as in the source, which never reads it. *)
Definition variant (payload : GenerateRequest) (i : Z) : str :=
  slice_to (max_len payload * 2)
    (pad (min_len payload) (assembled payload)).

(** [outputs] after the [for i in range(payload.variants)] loop. *)
Definition compose (payload : GenerateRequest) : list str :=
  fold_left (fun outputs i => outputs ++ [variant payload i])
    (range (variants payload)) [].

(** ** Request validation (the declared fields of [GenerateRequest]) *)

(** A request body as the annotations of the model read it: each field is
    absent, or present with a value of its declared type (a string, a
    number, an integer).  A body holding a value of another type, such as
    a null length or a fractional variants, is outside this model. *)
Record RawRequest := {
  raw_prompt : option str;
  raw_tone : option str;
  raw_sentiment : option str;
  raw_length : option str;
  raw_creativity : option float;
  raw_variants : option Z
}.

Inductive constraint := missing | greater_than_equal | less_than_equal.

(** What an error reports as the input it rejected: the whole body for a
    missing field, the value itself for a violated bound. *)
Inductive rejected_input :=
| body_input (body : RawRequest)
| float_input (c : float)
| int_input (v : Z).

Record FieldError := {
  loc : string;
  violated : constraint;
  input : rejected_input
}.

(** [Field(..., ...)]: a required field. *)
Definition required {A} (body : RawRequest) (name : string) (v : option A)
  : list FieldError :=
  match v with
  | Some _ => []
  | None =>
      [ {| loc := name; violated := missing; input := body_input body |} ]
  end.

(** [Field(default, ...)] *)
Definition with_default {A} (default : A) (v : option A) : A :=
  match v with
  | Some a => a
  | None => default
  end.

Definition check (name : string) (c : constraint) (i : rejected_input)
  (ok : bool) : list FieldError :=
  if ok then [] else [ {| loc := name; violated := c; input := i |} ].

Definition default_creativity : float := 0x1.6666666666666p-2%float.

(** The bounds of a field are tested [le] first, and the first bound
    violated is the field's one error. *)
Definition creativity_errors (c : float) : list FieldError :=
  match check "creativity" less_than_equal (float_input c)
          (float_le c 0x1p+0%float) with
  | [] => check "creativity" greater_than_equal (float_input c)
            (float_ge c 0x0p+0%float)
  | errs => errs
  end.

Definition variants_errors (v : Z) : list FieldError :=
  match check "variants" less_than_equal (int_input v) (v <=? 5)%Z with
  | [] => check "variants" greater_than_equal (int_input v) (1 <=? v)%Z
  | errs => errs
  end.

Definition field_errors (raw : RawRequest) : list FieldError :=
  required raw "prompt" (raw_prompt raw)
  ++ required raw "tone" (raw_tone raw)
  ++ required raw "sentiment" (raw_sentiment raw)
  ++ match raw_creativity raw with
     | Some c => creativity_errors c
     | None => []
     end
  ++ match raw_variants raw with
     | Some v => variants_errors v
     | None => []
     end.

(** Construction of a [GenerateRequest] from a body: the model, or the
    violated constraints. *)
Definition validate (raw : RawRequest)
  : list FieldError + GenerateRequest :=
  match field_errors raw, raw_prompt raw, raw_tone raw, raw_sentiment raw with
  | [], Some p, Some t, Some s =>
      inr {| prompt := p; tone := t; sentiment := s;
             length := with_default (lit "Medium") (raw_length raw);
             creativity := with_default default_creativity
                             (raw_creativity raw);
             variants := with_default 1%Z (raw_variants raw) |}
  | errs, _, _, _ => inl errs
  end.

(** A request as the handler can receive it. *)
Definition valid (payload : GenerateRequest) : Prop :=
  creativity_ok (creativity payload) = true
  /\ variants_ok (variants payload) = true.

(** ** The stored model ([schemas.py], [Generation]) *)

Module schemas.

Record Generation := {
  prompt : str;
  tone : str;
  sentiment : str;
  length : str;
  creativity : float;
  variants : Z;
  result : option str
}.

(** The constructor call [Generation(...)]: raises pydantic's
    [ValidationError] when a declared range is violated. *)
Definition new (g : Generation) : outcome Generation :=
  if creativity_ok (creativity g) && variants_ok (variants g)
  then Return g
  else Raise (Exception "ValidationError" "Generation").

End schemas.

(** ** Documents read back from the store *)

Record datetime := { dt_date : str; dt_time : str }.

Inductive pyval :=
| PNone
| PStr (s : str)
| PInt (i : Z)
| PObjectId (hex : str)
| PDatetime (d : datetime).

(** A stored document, a dict from field names to values. *)
Definition document := list (str * pyval).

(** [d.get(key, default)] and [d.get(key)] *)
Fixpoint doc_get (d : document) (key : str) (default : pyval) : pyval :=
  match d with
  | [] => default
  | (k, v) :: d' => if str_eq_dec k key then v else doc_get d' key default
  end.

(** [str(v)] *)
Definition py_str (v : pyval) : str :=
  match v with
  | PNone => lit "None"
  | PStr s => s
  | PInt i => str_of_int i
  | PObjectId hex => hex
  | PDatetime d => dt_date d ++ lit " " ++ dt_time d
  end.

(** The truth value of [v] in a condition. *)
Definition truthy (v : pyval) : bool :=
  match v with
  | PNone => false
  | PStr [] => false
  | PStr _ => true
  | PInt i => negb (i =? 0)%Z
  | PObjectId _ => true
  | PDatetime _ => true
  end.

(** [v.isoformat()] *)
Definition isoformat (v : pyval) : outcome str :=
  match v with
  | PDatetime d => Return (dt_date d ++ lit "T" ++ dt_time d)
  | _ => Raise (Exception "AttributeError" "isoformat")
  end.

(** ** The response models *)

Module GenerateResponse.
Record t := { id : str; outputs : list str }.
End GenerateResponse.

Module RecentItem.
Record t := { id : str; prompt : pyval; created_at : option str }.
End RecentItem.

(** An HTTP reply of the generation endpoint. *)
Inductive reply :=
| Ok200 (body : GenerateResponse.t)
| Unprocessable422 (detail : list FieldError)
| ServerError500.

Definition status_code (r : reply) : Z :=
  match r with
  | Ok200 _ => 200
  | Unprocessable422 _ => 422
  | ServerError500 => 500
  end.

(** The 422 reply carries the errors with their inputs, rendered as JSON by
    [json.dumps(..., allow_nan=False)]: a float renders when it is finite,
    and an infinity or a NaN makes the rendering raise. *)
Definition float_renders (c : float) : bool := PrimFloat.is_finite c.

Definition body_renders (body : RawRequest) : bool :=
  match raw_creativity body with
  | Some c => float_renders c
  | None => true
  end.

Definition renders (e : FieldError) : bool :=
  match input e with
  | body_input body => body_renders body
  | float_input c => float_renders c
  | int_input _ => true
  end.

(** One exchange on [POST /api/generate]: the reply, and the payloads the
    handler was called with. *)
Record exchange := { answer : reply; handled : list GenerateRequest }.

(** ** The handlers *)

Section Handlers.

(** The [database] module is an external collaborator of the service:
    its two functions return or raise. *)
Variable create_document : str -> schemas.Generation -> outcome str.
Variable get_recent_documents : str -> Z -> outcome (list document).

(** The document built in the [try] block. *)
Definition generation_doc (payload : GenerateRequest) (outputs : list str)
  : schemas.Generation :=
  {| schemas.prompt := prompt payload;
     schemas.tone := tone payload;
     schemas.sentiment := sentiment payload;
     schemas.length := length payload;
     schemas.creativity := creativity payload;
     schemas.variants := variants payload;
     schemas.result := Some (join [10%N; 10%N] outputs) |}.

(** [generate_content(payload)] *)
Definition generate_content (payload : GenerateRequest)
  : GenerateResponse.t :=
  let outputs := compose payload in
  let inserted_id :=
    try_except
      (bind (schemas.new (generation_doc payload outputs))
         (fun doc => create_document (lit "generation") doc))
      (fun e => lit "no-db") in
  {| GenerateResponse.id := inserted_id;
     GenerateResponse.outputs := outputs |}.

(** [POST /api/generate]: the body is validated, and the handler runs on
    the validated model only.  A rejected body is answered 422 with its
    errors; when these do not render, the request ends in a server error. *)
Definition post_generate (raw : RawRequest) : exchange :=
  match validate raw with
  | inl errs =>
      {| answer := if forallb renders errs
                   then Unprocessable422 errs
                   else ServerError500;
         handled := [] |}
  | inr payload =>
      {| answer := Ok200 (generate_content payload);
         handled := [payload] |}
  end.

(** The dict appended to [items] for one document. *)
Definition recent_item (d : document) : outcome RecentItem.t :=
  let id := py_str (doc_get d (lit "_id") PNone) in
  let p := doc_get d (lit "prompt") (PStr (lit "Untitled")) in
  bind
    (if truthy (doc_get d (lit "created_at") PNone)
     then bind (isoformat (doc_get d (lit "created_at") PNone))
            (fun s => Return (Some s))
     else Return None)
    (fun c =>
       Return {| RecentItem.id := id;
                 RecentItem.prompt := p;
                 RecentItem.created_at := c |}).

(** The [for d in docs] loop; [items] is the list built so far. *)
Fixpoint recent_loop (items : list RecentItem.t) (docs : list document)
  : outcome (list RecentItem.t) :=
  match docs with
  | [] => Return items
  | d :: docs' =>
      bind (recent_item d) (fun it => recent_loop (items ++ [it]) docs')
  end.

(** The list comprehension of the [except] branch. *)
Definition fallback_items : list RecentItem.t :=
  map (fun ip : Z * str =>
         {| RecentItem.id := lit "mock-" ++ str_of_int (fst ip);
            RecentItem.prompt := PStr (snd ip);
            RecentItem.created_at := None |})
    (enumerate
       [ lit "Product Launch Tweet";
         lit "Feature Update Email";
         lit "SEO Blog Outline" ] 1).

(** [recent_generations(limit)] *)
Definition recent_generations (limit : Z) : list RecentItem.t :=
  try_except
    (bind (get_recent_documents (lit "generation") limit)
       (fun docs => recent_loop [] docs))
    (fun _ => fallback_items).

End Handlers.

(** ** The diagnostic endpoint ([test_database]) *)

Definition check_mark : str := [9989%N].
Definition cross_mark : str := [10060%N].
Definition warning_sign : str := [9888%N; 65039%N].

(** The [db] handle of the [database] module: its [name] attribute, when it
    has one, and what [db.list_collection_names()] does. *)
Record database_handle := {
  db_name : option str;
  list_collection_names : outcome (list str)
}.

(** What [from database import db] does: it raises [ImportError], raises
    another exception, or binds [db] to [None] or to a handle. *)
Inductive db_import :=
| import_error
| import_raises (e : exn)
| imported (db : option database_handle).

(** The [response] dict. *)
Record diagnostic := {
  backend : str;
  database : str;
  database_url : option str;
  database_name : option str;
  connection_status : str;
  collections : list str
}.

Definition set_database (v : str) (r : diagnostic) : diagnostic :=
  {| backend := backend r; database := v;
     database_url := database_url r; database_name := database_name r;
     connection_status := connection_status r;
     collections := collections r |}.

Definition set_database_url (v : option str) (r : diagnostic) : diagnostic :=
  {| backend := backend r; database := database r;
     database_url := v; database_name := database_name r;
     connection_status := connection_status r;
     collections := collections r |}.

Definition set_database_name (v : option str) (r : diagnostic)
  : diagnostic :=
  {| backend := backend r; database := database r;
     database_url := database_url r; database_name := v;
     connection_status := connection_status r;
     collections := collections r |}.

Definition set_connection_status (v : str) (r : diagnostic) : diagnostic :=
  {| backend := backend r; database := database r;
     database_url := database_url r; database_name := database_name r;
     connection_status := v;
     collections := collections r |}.

Definition set_collections (v : list str) (r : diagnostic) : diagnostic :=
  {| backend := backend r; database := database r;
     database_url := database_url r; database_name := database_name r;
     connection_status := connection_status r;
     collections := v |}.

(** [str(e)] *)
Definition exn_str (e : exn) : str := lit (exn_msg e).

(** ["... Set" if os.getenv(name) else "... Not Set"]: an unset variable
    and an empty one are both falsy. *)
Definition env_status (v : option str) : str :=
  match v with
  | Some (_ :: _) => check_mark ++ lit " Set"
  | _ => cross_mark ++ lit " Not Set"
  end.

Definition initial_response : diagnostic :=
  {| backend := check_mark ++ lit " Running";
     database := cross_mark ++ lit " Not Available";
     database_url := None;
     database_name := None;
     connection_status := lit "Not Connected";
     collections := [] |}.

(** The [if db is not None] branch. *)
Definition probe_handle (db : database_handle) (r : diagnostic)
  : diagnostic :=
  let r := set_database (check_mark ++ lit " Available") r in
  let r := set_database_url (Some (check_mark ++ lit " Configured")) r in
  let r := set_database_name
             (Some (match db_name db with
                    | Some n => n
                    | None => check_mark ++ lit " Connected"
                    end)) r in
  let r := set_connection_status (lit "Connected") r in
  match list_collection_names db with
  | Return cols =>
      let r := set_collections (slice_to 10 cols) r in
      set_database (check_mark ++ lit " Connected & Working") r
  | Raise e =>
      set_database
        (warning_sign ++ lit "  Connected but Error: "
         ++ slice_to 50 (exn_str e)) r
  end.

(** [test_database()], given what the import does and the environment. *)
Definition test_database (imp : db_import) (getenv : str -> option str)
  : diagnostic :=
  let response :=
    match imp with
    | imported (Some db) => probe_handle db initial_response
    | imported None =>
        set_database
          (warning_sign ++ lit "  Available but not initialized")
          initial_response
    | import_error =>
        set_database
          (cross_mark
           ++ lit " Database module not found (run enable-database first)")
          initial_response
    | import_raises e =>
        set_database
          (cross_mark ++ lit " Error: " ++ slice_to 50 (exn_str e))
          initial_response
    end in
  let response :=
    set_database_url
      (Some (env_status (getenv (lit "DATABASE_URL")))) response in
  set_database_name
    (Some (env_status (getenv (lit "DATABASE_NAME")))) response.

(** ** Vocabulary of the specification *)

(** The body that carries every field of a model. *)
Definition body_of (payload : GenerateRequest) : RawRequest :=
  {| raw_prompt := Some (prompt payload);
     raw_tone := Some (tone payload);
     raw_sentiment := Some (sentiment payload);
     raw_length := Some (length payload);
     raw_creativity := Some (creativity payload);
     raw_variants := Some (variants payload) |}.

(** A body whose two numeric fields, when present, are outside or inside
    the declared ranges. *)
Definition out_of_range (raw : RawRequest) : Prop :=
  (exists c, raw_creativity raw = Some c /\ creativity_ok c = false)
  \/ (exists v, raw_variants raw = Some v /\ variants_ok v = false).

Definition in_range (raw : RawRequest) : Prop :=
  (forall c, raw_creativity raw = Some c -> creativity_ok c = true)
  /\ (forall v, raw_variants raw = Some v -> variants_ok v = true).

Definition range_error (e : FieldError) : Prop :=
  violated e = greater_than_equal \/ violated e = less_than_equal.



(** A prompt that is empty or made of whitespace only. *)
Definition blank (s : str) : Prop := Forall (fun c => isspace c = true) s.

(** The three length presets. *)
Definition length_presets : list str :=
  [ lit "Short"; lit "Medium"; lit "Long" ].

(** A stored document whose [created_at] the listing can render: it is
    missing or falsy, or it is a datetime. *)
Definition well_dated (d : document) : bool :=
  match doc_get d (lit "created_at") PNone with
  | PDatetime _ => true
  | v => negb (truthy v)
  end.

(** The keys the listing reads. *)
Definition listing_keys : list str :=
  [ lit "_id"; lit "prompt"; lit "created_at" ].

(** ** Sample stores and requests *)

(** A deployment without a database: both calls raise. *)
Definition no_database : str -> schemas.Generation -> outcome str :=
  fun _ _ => Raise (Exception "Exception" "Database not available").

Definition no_recent : str -> Z -> outcome (list document) :=
  fun _ _ => Raise (Exception "Exception" "Database not available").

(** A store that accepts every document. *)
Definition working_database : str -> schemas.Generation -> outcome str :=
  fun _ _ => Return (lit "65f1c0ffee").

Definition urgent_short_request : GenerateRequest :=
  {| prompt := lit "Hi"; tone := lit "Professional";
     sentiment := lit "Urgent"; length := lit "Short";
     creativity := default_creativity; variants := 2 |}.

Definition sarcastic_request : GenerateRequest :=
  {| prompt := lit "Launch our new analytics dashboard";
     tone := lit "Sarcastic"; sentiment := lit "Bored";
     length := lit "Medium";
     creativity := default_creativity; variants := 1 |}.

Definition blank_request : GenerateRequest :=
  {| prompt := lit "   "; tone := lit "Playful";
     sentiment := lit "Positive"; length := lit "Long";
     creativity := 0x1p+0%float; variants := 5 |}.

Definition nineteen_words_request : GenerateRequest :=
  {| prompt := lit "a b c d e f g h i j k l m n o p q r s";
     tone := lit "Sarcastic"; sentiment := lit "Bored";
     length := lit "Medium";
     creativity := default_creativity; variants := 1 |}.

Definition stored_tweet : document :=
  [ (lit "_id", PObjectId (lit "65f1c0ffee"));
    (lit "prompt", PStr (lit "Spring sale"));
    (lit "created_at",
      PDatetime {| dt_date := lit "2024-03-13"; dt_time := lit "09:30:00" |}) ].

Definition malformed_tweet : document :=
  [ (lit "_id", PObjectId (lit "65f1c0ffef"));
    (lit "created_at", PStr (lit "yesterday")) ].

Definition lowercase_length_request : GenerateRequest :=
  {| prompt := lit "  Spring sale  "; tone := lit "Casual";
     sentiment := lit "Neutral"; length := lit "short";
     creativity := 0x1.8p-1%float; variants := 3 |}.

Definition spring_sale_request : GenerateRequest :=
  {| prompt := lit "Spring sale"; tone := lit "Casual";
     sentiment := lit "Neutral"; length := lit "short";
     creativity := 0x1.8p-1%float; variants := 3 |}.

Definition strings_only_body : RawRequest :=
  {| raw_prompt := Some (lit "Spring sale"); raw_tone := Some (lit "Casual");
     raw_sentiment := Some (lit "Urgent"); raw_length := None;
     raw_creativity := None; raw_variants := None |}.

Definition bare_document : document :=
  [ (lit "tone", PStr (lit "Casual")) ].

Definition failing_handle : database_handle :=
  {| db_name := Some (lit "contentforge");
     list_collection_names :=
       Raise (Exception "ServerSelectionTimeoutError"
                "localhost:27017: [Errno 111] Connection refused, Timeout: 30s, Topology Description: unknown") |}.

Definition no_environment : str -> option str := fun _ => None.



Definition infinite_creativity_body : RawRequest :=
  {| raw_prompt := Some (lit "Hi"); raw_tone := Some (lit "Formal");
     raw_sentiment := Some (lit "Neutral"); raw_length := None;
     raw_creativity := Some infinity; raw_variants := None |}.




(** * Properties *)

(** ** Strings and lists *)

Section StringFacts.

Lemma startswith_app (t s : str) : startswith (t ++ s) t = true.
Proof.
  induction t as [|b t IH]; simpl.
  - reflexivity.
  - unfold char_eqb. rewrite N.eqb_refl. exact IH.
Qed.

Lemma startswith_spec (s t : str) :
  startswith s t = true <-> exists post, s = t ++ post.
Proof.
  split.
  - revert s. induction t as [|b t IH]; intros s H.
    + exists s. reflexivity.
    + destruct s as [|a s]; simpl in H; [discriminate|].
      apply andb_prop in H. destruct H as [Hab Hs].
      apply N.eqb_eq in Hab. subst b.
      destruct (IH s Hs) as [post ->].
      exists post. reflexivity.
  - intros [post ->]. apply startswith_app.
Qed.

Lemma endswith_app (s t : str) : endswith (s ++ t) t = true.
Proof.
  unfold endswith. rewrite rev_app_distr. apply startswith_app.
Qed.

Lemma endswith_spec (s t : str) :
  endswith s t = true <-> exists pre, s = pre ++ t.
Proof.
  unfold endswith. rewrite startswith_spec. split.
  - intros [post H]. exists (rev post).
    rewrite <- (rev_involutive s), H, rev_app_distr, rev_involutive.
    reflexivity.
  - intros [pre ->]. exists (rev pre). apply rev_app_distr.
Qed.

Lemma contains_here (s t : str) :
  startswith s t = true -> contains s t = true.
Proof. intros H. destruct s; simpl; rewrite H; reflexivity. Qed.

Lemma contains_app (pre t post : str) :
  contains (pre ++ t ++ post) t = true.
Proof.
  induction pre as [|a pre IH].
  - apply contains_here. exact (startswith_app t post).
  - simpl. rewrite IH. apply orb_true_r.
Qed.

Lemma contains_spec (s t : str) :
  contains s t = true <-> exists pre post, s = pre ++ t ++ post.
Proof.
  split.
  - induction s as [|a s IH]; simpl; intros H.
    + rewrite orb_false_r in H. apply startswith_spec in H.
      destruct H as [post H]. exists [], post. exact H.
    + apply orb_prop in H. destruct H as [H|H].
      * apply startswith_spec in H. destruct H as [post H].
        exists [], post. exact H.
      * destruct (IH H) as (pre & post & ->).
        exists (a :: pre), post. reflexivity.
  - intros (pre & post & ->). apply contains_app.
Qed.

Lemma lstrip_whitespace (s : str) :
  Forall (fun c => isspace c = true) s -> lstrip s = [].
Proof.
  induction 1 as [|c s Hc _ IH]; simpl.
  - reflexivity.
  - rewrite Hc. exact IH.
Qed.

Lemma strip_whitespace (s : str) :
  Forall (fun c => isspace c = true) s -> strip s = [].
Proof.
  intros H. unfold strip. rewrite (lstrip_whitespace H). reflexivity.
Qed.

Lemma len_nonneg {A} (l : list A) : (0 <= len l)%Z.
Proof. unfold len. lia. Qed.

Lemma slice_to_nonneg {A} (k : Z) (l : list A) :
  (0 <= k)%Z -> slice_to k l = firstn (Z.to_nat k) l.
Proof.
  intros H. unfold slice_to.
  destruct (Z.ltb_spec k 0); [lia | reflexivity].
Qed.

Lemma firstn_within {A} (n : nat) (l r : list A) :
  n <= List.length l -> firstn n (l ++ r) = firstn n l.
Proof.
  intros H. rewrite firstn_app.
  replace (n - List.length l) with 0 by lia.
  simpl. apply app_nil_r.
Qed.

Lemma firstn_capped {A} (n : nat) (l : list A) :
  firstn n l = firstn (Nat.min n (List.length l)) l.
Proof.
  destruct (Nat.le_ge_cases n (List.length l)) as [H|H].
  - rewrite Nat.min_l by exact H. reflexivity.
  - rewrite Nat.min_r by exact H.
    rewrite firstn_all. apply firstn_all2. exact H.
Qed.

Lemma range_length (n : Z) : List.length (range n) = Z.to_nat n.
Proof. unfold range. rewrite List.length_map, length_seq. reflexivity. Qed.

Lemma fold_append {A B} (f : A -> B) (l : list A) (acc : list B) :
  fold_left (fun outputs i => outputs ++ [f i]) l acc = acc ++ map f l.
Proof.
  revert acc. induction l as [|x l IH]; intros acc; simpl.
  - symmetry. apply app_nil_r.
  - rewrite IH, <- app_assoc. reflexivity.
Qed.

Lemma map_constant {A B} (b : B) (l : list A) :
  map (fun _ => b) l = repeat b (List.length l).
Proof.
  induction l as [|x l IH]; simpl; [reflexivity | now rewrite IH].
Qed.

End StringFacts.

(** ** The composer *)

Section ComposerFacts.

Variable payload : GenerateRequest.

Lemma compose_map :
  compose payload = map (variant payload) (range (variants payload)).
Proof. unfold compose. rewrite fold_append. reflexivity. Qed.

(** Every iteration appends the same string. *)
Lemma compose_repeat :
  compose payload
  = repeat (variant payload 0) (Z.to_nat (variants payload)).
Proof.
  rewrite compose_map.
  change (variant payload) with (fun _ : Z => variant payload 0).
  rewrite map_constant, range_length. reflexivity.
Qed.

Lemma compose_length :
  List.length (compose payload) = Z.to_nat (variants payload).
Proof. rewrite compose_repeat. apply repeat_length. Qed.

Lemma compose_In (o : str) :
  In o (compose payload) -> o = variant payload 0.
Proof. rewrite compose_repeat. apply repeat_spec. Qed.

Lemma length_bounds :
  (min_len payload, max_len payload)
  = dict_get length_map (length payload) (40, 60)%Z.
Proof. unfold min_len, max_len. now destruct (dict_get _ _ _). Qed.

(** The three rows of [length_map] and its default. *)
Lemma length_cases :
  (min_len payload, max_len payload) = (18, 26)%Z
  \/ (min_len payload, max_len payload) = (40, 60)%Z
  \/ (min_len payload, max_len payload) = (80, 120)%Z.
Proof.
  rewrite length_bounds. unfold length_map, dict_get.
  repeat match goal with
         | |- context [str_eq_dec ?a ?b] => destruct (str_eq_dec a b)
         end; auto.
Qed.

Lemma max_len_pos : (52 <= max_len payload * 2)%Z.
Proof.
  destruct length_cases as [H|[H|H]]; inversion H; lia.
Qed.

Lemma pad_extends (lo : Z) (text : str) :
  exists more, pad lo text = text ++ more.
Proof.
  unfold pad. destruct (word_count text <? lo)%Z.
  - eexists. reflexivity.
  - exists []. symmetry. apply app_nil_r.
Qed.

Lemma assembled_extends :
  exists more, assembled payload = core payload ++ more.
Proof. unfold assembled. eexists. reflexivity. Qed.

Lemma core_length :
  List.length (core payload) = List.length (base payload) + 53.
Proof. unfold core. rewrite !length_app. simpl. lia. Qed.

(** The padded text starts with [core], so do its prefixes. *)
Lemma variant_core (n : nat) :
  n <= List.length (core payload) ->
  firstn n (pad (min_len payload) (assembled payload))
  = firstn n (core payload).
Proof.
  intros H.
  destruct (pad_extends (min_len payload) (assembled payload)) as [m1 ->].
  destruct assembled_extends as [m2 ->].
  rewrite <- app_assoc. apply firstn_within. exact H.
Qed.

Lemma variant_unfold (i : Z) :
  variant payload i
  = firstn (Z.to_nat (max_len payload * 2))
      (pad (min_len payload) (assembled payload)).
Proof.
  unfold variant. apply slice_to_nonneg.
  pose proof max_len_pos. lia.
Qed.

Lemma base_nonempty : base payload <> [].
Proof.
  unfold base, or_else. destruct (strip (prompt payload)); discriminate.
Qed.

Lemma variant_nonempty (i : Z) : variant payload i <> [].
Proof.
  rewrite variant_unfold.
  destruct (pad_extends (min_len payload) (assembled payload)) as [m1 ->].
  destruct assembled_extends as [m2 ->].
  unfold core. pose proof base_nonempty as Hb.
  destruct (base payload) as [|c b]; [congruence|].
  pose proof max_len_pos as Hm.
  destruct (Z.to_nat (max_len payload * 2)) eqn:E; [lia|].
  simpl. discriminate.
Qed.

End ComposerFacts.

(** ** Validation *)

Section ValidationFacts.

Variable raw : RawRequest.

Lemma validate_errors :
  field_errors raw <> [] -> validate raw = inl (field_errors raw).
Proof.
  intros H. unfold validate.
  destruct (field_errors raw); [congruence | reflexivity].
Qed.

Lemma validate_clean :
  field_errors raw = [] ->
  exists p t s,
    raw_prompt raw = Some p /\ raw_tone raw = Some t
    /\ raw_sentiment raw = Some s
    /\ validate raw
       = inr {| prompt := p; tone := t; sentiment := s;
                length := with_default (lit "Medium") (raw_length raw);
                creativity := with_default default_creativity
                                (raw_creativity raw);
                variants := with_default 1%Z (raw_variants raw) |}.
Proof.
  intros H. unfold validate. rewrite H.
  unfold field_errors in H.
  destruct (raw_prompt raw) as [p|]; [|discriminate].
  destruct (raw_tone raw) as [t|]; [|discriminate].
  destruct (raw_sentiment raw) as [s|]; [|discriminate].
  exists p, t, s. auto.
Qed.

Lemma creativity_errors_nil (c : float) :
  creativity_errors c = [] <-> creativity_ok c = true.
Proof.
  unfold creativity_errors, creativity_ok, check.
  destruct (float_ge c 0%float), (float_le c 1%float); simpl;
    split; intros H; try reflexivity; discriminate.
Qed.

Lemma variants_errors_nil (v : Z) :
  variants_errors v = [] <-> variants_ok v = true.
Proof.
  unfold variants_errors, variants_ok, check.
  destruct (1 <=? v)%Z, (v <=? 5)%Z; simpl;
    split; intros H; try reflexivity; discriminate.
Qed.

Lemma variants_ok_bounds (v : Z) :
  variants_ok v = true <-> (1 <= v <= 5)%Z.
Proof. unfold variants_ok. lia. Qed.

(** What validation returns satisfies the declared ranges. *)
Lemma validate_valid (payload : GenerateRequest) :
  validate raw = inr payload -> valid payload.
Proof.
  intros H.
  destruct (field_errors raw) as [|e errs] eqn:E.
  - destruct (validate_clean E) as (p & t & s & _ & _ & _ & Hv).
    rewrite Hv in H. injection H as <-.
    unfold field_errors in E.
    do 3 (apply app_eq_nil in E; destruct E as [_ E]).
    apply app_eq_nil in E. destruct E as [Ec Ev].
    unfold valid. simpl. split.
    + destruct (raw_creativity raw) as [c|]; simpl.
      * now apply creativity_errors_nil.
      * reflexivity.
    + destruct (raw_variants raw) as [v|]; simpl.
      * now apply variants_errors_nil.
      * reflexivity.
  - rewrite validate_errors in H; [discriminate | congruence].
Qed.

End ValidationFacts.

(** Every valid model is the result of validating some body. *)
Lemma valid_validate (payload : GenerateRequest) :
  valid payload -> validate (body_of payload) = inr payload.
Proof.
  intros [Hc Hv].
  assert (E : field_errors (body_of payload) = []).
  { unfold field_errors. simpl.
    apply creativity_errors_nil in Hc. apply variants_errors_nil in Hv.
    rewrite Hc, Hv. reflexivity. }
  destruct (validate_clean _ E) as (p & t & s & Hp & Ht & Hs & ->).
  simpl in *. injection Hp as <-. injection Ht as <-. injection Hs as <-.
  destruct payload; reflexivity.
Qed.

(** A value outside its range has one error, on the first bound violated,
    which reports the value as its input. *)
Lemma creativity_rejected (c : float) :
  creativity_ok c = false ->
  exists e,
    creativity_errors c = [e] /\ range_error e
    /\ input e = float_input c.
Proof.
  unfold creativity_ok, creativity_errors, check, range_error. intros H.
  destruct (float_le c 1%float).
  - destruct (float_ge c 0%float); [discriminate|].
    eexists. split; [reflexivity|]. split; [left|]; reflexivity.
  - eexists. split; [reflexivity|]. split; [right|]; reflexivity.
Qed.

Example nan_one_error :
  creativity_errors nan
  = [ {| loc := "creativity"; violated := less_than_equal;
         input := float_input nan |} ].
Proof. reflexivity. Qed.




Lemma unrendered_error (errs : list FieldError) (e : FieldError) :
  In e errs -> renders e = false -> forallb renders errs = false.
Proof.
  intros Hin He. destruct (forallb renders errs) eqn:E; [|reflexivity].
  rewrite forallb_forall in E. rewrite (E e Hin) in He. discriminate.
Qed.

Lemma in_range_numeric (raw : RawRequest) :
  in_range raw ->
  match raw_creativity raw with
  | Some c => creativity_errors c
  | None => []
  end = []
  /\ match raw_variants raw with
     | Some v => variants_errors v
     | None => []
     end = [].
Proof.
  intros [Hc Hv]. split.
  - destruct (raw_creativity raw) as [c|]; [|reflexivity].
    apply creativity_errors_nil. auto.
  - destruct (raw_variants raw) as [v|]; [|reflexivity].
    apply variants_errors_nil. auto.
Qed.


Lemma in_range_accepts (raw : RawRequest) (p t s : str) :
  in_range raw ->
  raw_prompt raw = Some p -> raw_tone raw = Some t ->
  raw_sentiment raw = Some s ->
  validate raw
  = inr {| prompt := p; tone := t; sentiment := s;
           length := with_default (lit "Medium") (raw_length raw);
           creativity := with_default default_creativity
                           (raw_creativity raw);
           variants := with_default 1%Z (raw_variants raw) |}.
Proof.
  intros Hr Hp Ht Hs.
  assert (E : field_errors raw = []).
  { unfold field_errors.
    destruct (in_range_numeric Hr) as [-> ->].
    rewrite Hp, Ht, Hs. reflexivity. }
  destruct (validate_clean _ E) as (p' & t' & s' & Hp' & Ht' & Hs' & ->).
  congruence.
Qed.

(** ** The generation endpoint *)

Lemma sample_requests_valid :
  valid urgent_short_request /\ valid sarcastic_request
  /\ valid blank_request.
Proof. repeat split; reflexivity. Qed.

(** A valid model passes the constructor of the stored model, so that the
    only failure left in the [try] block is the store's. *)
Lemma generation_doc_accepted (payload : GenerateRequest)
  (outputs : list str) :
  valid payload ->
  schemas.new (generation_doc payload outputs)
  = Return (generation_doc payload outputs).
Proof.
  intros [Hc Hv]. unfold schemas.new. simpl. rewrite Hc, Hv. reflexivity.
Qed.


Lemma generate_content_outputs
  (create_document : str -> schemas.Generation -> outcome str)
  (payload : GenerateRequest) :
  GenerateResponse.outputs (generate_content create_document payload)
  = compose payload.
Proof. reflexivity. Qed.

(** C1: for every valid request (variants an integer in [1,5]) and whatever
    the store does, the outputs sequence returned by the generate operation
    has exactly [variants] elements. *)
Theorem outputs_length
  (create_document : str -> schemas.Generation -> outcome str)
  (payload : GenerateRequest) :
  valid payload ->
  len (GenerateResponse.outputs (generate_content create_document payload))
  = variants payload.
Proof.
  intros [_ Hv]. apply variants_ok_bounds in Hv.
  rewrite generate_content_outputs. unfold len.
  rewrite compose_length. lia.
Qed.

Lemma outputs_length_witness :
  valid urgent_short_request
  /\ len (GenerateResponse.outputs
            (generate_content working_database urgent_short_request)) = 2%Z.
Proof.
  split.
  - split; reflexivity.
  - apply (@outputs_length working_database urgent_short_request).
    split; reflexivity.
Defined.

(** C2: the claim promises a 422 for every creativity outside [0.0, 1.0].
    For a creativity that is an infinity or a NaN (the JSON number 1e999
    reads as an infinity) validation does fail, on the creativity bound,
    and the handler is not called, but the error holds the value, which has
    no JSON rendering: the answer is 500, not 422. *)
Theorem nonfinite_creativity_server_error
  (create_document : str -> schemas.Generation -> outcome str)
  (raw : RawRequest) (c : float) :
  raw_creativity raw = Some c ->
  c = infinity \/ c = neg_infinity \/ c = nan ->
  creativity_ok c = false
  /\ (exists errs e,
        validate raw = inl errs /\ In e errs /\ range_error e
        /\ input e = float_input c)
  /\ handled (post_generate create_document raw) = []
  /\ answer (post_generate create_document raw) = ServerError500
  /\ status_code (answer (post_generate create_document raw)) = 500%Z.
Proof.
  intros Hc Hinf.
  assert (Hok : creativity_ok c = false).
  { destruct Hinf as [->|[->| ->]]; reflexivity. }
  assert (Hr : float_renders c = false).
  { destruct Hinf as [->|[->| ->]]; reflexivity. }
  destruct (creativity_rejected _ Hok) as (e & He & Hrange & Hinput).
  assert (Hin : In e (field_errors raw)).
  { unfold field_errors. rewrite Hc, He, !in_app_iff.
    do 3 right. left. left. reflexivity. }
  assert (Hv : validate raw = inl (field_errors raw)).
  { apply validate_errors. intros E. rewrite E in Hin. exact Hin. }
  assert (Hu : forallb renders (field_errors raw) = false).
  { apply unrendered_error with (e := e); [exact Hin|].
    unfold renders. rewrite Hinput. exact Hr. }
  split; [exact Hok|]. split; [exists (field_errors raw), e; auto|].
  unfold post_generate. rewrite Hv. simpl. rewrite Hu.
  repeat split.
Qed.

Lemma nonfinite_creativity_server_error_witness :
  out_of_range infinite_creativity_body
  /\ status_code
       (answer (post_generate working_database infinite_creativity_body))
     = 500%Z
  /\ handled (post_generate working_database infinite_creativity_body) = [].
Proof.
  destruct (@nonfinite_creativity_server_error working_database
              infinite_creativity_body infinity eq_refl
              (or_introl eq_refl)) as (Hok & _ & Hh & _ & Hs).
  split; [|split; [exact Hs | exact Hh]].
  left. exists infinity. split; [reflexivity | exact Hok].
Defined.



(** C5: the composer is a function of the six request fields alone: two
    requests with the same fields have the same outputs, whatever the store
    does, and inside one outputs sequence every element is the same text,
    the loop index playing no part. *)
Theorem composer_deterministic
  (store1 store2 : str -> schemas.Generation -> outcome str)
  (p1 p2 : GenerateRequest) :
  prompt p1 = prompt p2 -> tone p1 = tone p2 ->
  sentiment p1 = sentiment p2 -> length p1 = length p2 ->
  creativity p1 = creativity p2 -> variants p1 = variants p2 ->
  compose p1 = compose p2
  /\ GenerateResponse.outputs (generate_content store1 p1)
     = GenerateResponse.outputs (generate_content store2 p2)
  /\ (forall i j, variant p1 i = variant p1 j)
  /\ (forall x y, In x (compose p1) -> In y (compose p1) -> x = y)
  /\ compose p1 = repeat (variant p1 0) (Z.to_nat (variants p1)).
Proof.
  intros Hp Ht Hs Hl Hc Hv.
  assert (E : p1 = p2).
  { destruct p1, p2; simpl in *. congruence. }
  subst p2. repeat split.
  - intros x y Hx Hy.
    rewrite (compose_In _ _ Hx), (compose_In _ _ Hy). reflexivity.
  - apply compose_repeat.
Qed.

Lemma composer_deterministic_witness :
  GenerateResponse.outputs (generate_content no_database blank_request)
  = GenerateResponse.outputs (generate_content working_database blank_request)
  /\ forall x y,
      In x (compose blank_request) -> In y (compose blank_request) -> x = y.
Proof.
  destruct (@composer_deterministic no_database working_database
              blank_request blank_request
              eq_refl eq_refl eq_refl eq_refl eq_refl eq_refl)
    as (_ & Ho & _ & Hsame & _).
  split; [exact Ho | exact Hsame].
Defined.

(** ** The recent-items endpoint *)

(** Whatever the [try] block raises, in the read or while a document is
    projected, the fallback list is returned. *)
Lemma recent_generations_raise
  (get_recent_documents : str -> Z -> outcome (list document))
  (limit : Z) (e : exn) :
  bind (get_recent_documents (lit "generation") limit) (recent_loop [])
  = Raise e ->
  recent_generations get_recent_documents limit = fallback_items.
Proof.
  intros H. unfold recent_generations.
  change (fun docs => recent_loop [] docs) with (recent_loop []).
  rewrite H. reflexivity.
Qed.

(** The accumulator of the loop only prefixes its result. *)
Lemma recent_loop_acc (docs : list document) (items : list RecentItem.t) :
  recent_loop items docs
  = bind (recent_loop [] docs) (fun its => Return (items ++ its)).
Proof.
  revert items. induction docs as [|d docs IH]; intros items; simpl.
  - now rewrite app_nil_r.
  - destruct (recent_item d) as [it|e]; simpl; [|reflexivity].
    rewrite (IH (items ++ [it])), (IH [it]).
    destruct (recent_loop [] docs) as [its|e]; simpl; [|reflexivity].
    now rewrite <- app_assoc.
Qed.

Example recent_generations_reads :
  recent_generations (fun _ _ => Return [stored_tweet; []]) 9
  = [ {| RecentItem.id := lit "65f1c0ffee";
         RecentItem.prompt := PStr (lit "Spring sale");
         RecentItem.created_at := Some (lit "2024-03-13T09:30:00") |};
      {| RecentItem.id := lit "None";
         RecentItem.prompt := PStr (lit "Untitled");
         RecentItem.created_at := None |} ].
Proof. reflexivity. Qed.

Example recent_generations_malformed :
  recent_generations (fun _ _ => Return [stored_tweet; malformed_tweet]) 9
  = fallback_items.
Proof. reflexivity. Qed.

(** C4: for every limit, when the read from the store raises, the
    recent-items operation returns exactly three fallback items, with
    identifiers mock-1, mock-2, mock-3 and no creation timestamp; the error
    is not propagated. *)
Theorem recent_fallback
  (get_recent_documents : str -> Z -> outcome (list document))
  (limit : Z) (e : exn) :
  get_recent_documents (lit "generation") limit = Raise e ->
  recent_generations get_recent_documents limit
  = [ {| RecentItem.id := lit "mock-1";
         RecentItem.prompt := PStr (lit "Product Launch Tweet");
         RecentItem.created_at := None |};
      {| RecentItem.id := lit "mock-2";
         RecentItem.prompt := PStr (lit "Feature Update Email");
         RecentItem.created_at := None |};
      {| RecentItem.id := lit "mock-3";
         RecentItem.prompt := PStr (lit "SEO Blog Outline");
         RecentItem.created_at := None |} ]
  /\ len (recent_generations get_recent_documents limit) = 3%Z
  /\ map RecentItem.id (recent_generations get_recent_documents limit)
     = map (fun index => lit "mock-" ++ str_of_int index) [1; 2; 3]%Z
  /\ Forall (fun item => RecentItem.created_at item = None)
       (recent_generations get_recent_documents limit).
Proof.
  intros H.
  assert (E : recent_generations get_recent_documents limit
              = fallback_items).
  { apply recent_generations_raise with (e := e). rewrite H. reflexivity. }
  rewrite E. repeat split. repeat constructor.
Qed.

Lemma recent_fallback_witness :
  len (recent_generations no_recent 1) = 3%Z
  /\ map RecentItem.id (recent_generations no_recent 1)
     = [lit "mock-1"; lit "mock-2"; lit "mock-3"].
Proof.
  destruct (@recent_fallback no_recent 1
              (Exception "Exception" "Database not available") eq_refl)
    as (_ & Hlen & Hids & _).
  split; [exact Hlen | exact Hids].
Defined.

(** ** The composed text *)

Lemma is_urgent_iff (payload : GenerateRequest) :
  is_urgent payload = true <-> sentiment payload = lit "Urgent".
Proof.
  unfold is_urgent, str_eqb.
  destruct (str_eq_dec (sentiment payload) (lit "Urgent"));
    split; intros H; try reflexivity; try assumption;
    [discriminate | contradiction].
Qed.

Lemma outputs_cut
  (create_document : str -> schemas.Generation -> outcome str)
  (payload : GenerateRequest) (o : str) :
  In o (GenerateResponse.outputs (generate_content create_document payload))
  -> o = firstn (Z.to_nat (max_len payload * 2))
           (pad (min_len payload) (assembled payload)).
Proof.
  rewrite generate_content_outputs. intros H.
  rewrite (compose_In _ _ H). apply variant_unfold.
Qed.

(** For the Short length the cut falls inside [core]. *)
Lemma short_outputs
  (create_document : str -> schemas.Generation -> outcome str)
  (payload : GenerateRequest) (o : str) :
  length payload = lit "Short" ->
  In o (GenerateResponse.outputs (generate_content create_document payload))
  -> o = firstn 52 (core payload).
Proof.
  intros Hl H. rewrite (outputs_cut _ _ _ H).
  assert (Hmax : max_len payload = 26%Z).
  { unfold max_len. rewrite Hl. reflexivity. }
  rewrite Hmax. change (Z.to_nat (26 * 2)) with 52.
  apply variant_core. rewrite core_length. lia.
Qed.

(** C6, as amended: for every valid request with tone Professional,
    sentiment Urgent and length Short, the text assembled for each variant,
    before padding and truncation, ends with the punctuation "!" followed
    by the call-to-action suffix " Take the next step today"; every output
    string is that text padded and cut to 52 characters, which leaves the
    first 52 characters of [core]. *)
Theorem urgent_short_text
  (create_document : str -> schemas.Generation -> outcome str)
  (payload : GenerateRequest) :
  valid payload ->
  tone payload = lit "Professional" ->
  sentiment payload = lit "Urgent" ->
  length payload = lit "Short" ->
  exclaim payload = lit "!"
  /\ suffix payload = lit " Take the next step today"
  /\ assembled payload
     = core payload ++ lit " " ++ guide payload
       ++ lit "!" ++ lit " Take the next step today"
  /\ endswith (assembled payload) (lit "! Take the next step today") = true
  /\ contains (assembled payload) (lit "Take the next step today") = true
  /\ forall o,
      In o (GenerateResponse.outputs
              (generate_content create_document payload)) ->
      o = firstn 52 (pad 18 (assembled payload))
      /\ o = firstn 52 (core payload).
Proof.
  intros _ Ht Hs Hl.
  assert (Hu : is_urgent payload = true) by now apply is_urgent_iff.
  assert (He : exclaim payload = lit "!").
  { unfold exclaim. rewrite Hu. reflexivity. }
  assert (Hx : suffix payload = lit " Take the next step today").
  { unfold suffix. rewrite Hu. reflexivity. }
  assert (Ha : assembled payload
               = core payload ++ lit " " ++ guide payload
                 ++ lit "!" ++ lit " Take the next step today").
  { unfold assembled. rewrite He, Hx. reflexivity. }
  repeat split; try assumption.
  - apply endswith_spec.
    exists (core payload ++ lit " " ++ guide payload).
    rewrite Ha, <- !app_assoc. reflexivity.
  - apply contains_spec.
    exists (core payload ++ lit " " ++ guide payload ++ lit "! "), [].
    rewrite Ha, app_nil_r, <- !app_assoc. reflexivity.
  - rewrite (outputs_cut _ _ _ H).
    unfold max_len, min_len. rewrite Hl. reflexivity.
  - apply (short_outputs _ _ _ Hl H).
Qed.

Lemma urgent_short_text_witness :
  valid urgent_short_request
  /\ endswith (assembled urgent_short_request)
       (lit "! Take the next step today") = true
  /\ forall o,
      In o (GenerateResponse.outputs
              (generate_content no_database urgent_short_request)) ->
      o = firstn 52 (core urgent_short_request).
Proof.
  assert (Hvalid : valid urgent_short_request) by (split; reflexivity).
  destruct (@urgent_short_text no_database urgent_short_request
              Hvalid eq_refl eq_refl eq_refl)
    as (_ & _ & _ & Hend & _ & Hout).
  split; [exact Hvalid|]. split; [exact Hend|].
  intros o Ho. apply (proj2 (Hout o Ho)).
Defined.

(** C6, as stated, fails: the request (prompt "Hi", Professional, Urgent,
    Short) is valid, and its output is the 52 characters
    "Hi — crafted with ContentForge to help you move fast", which neither
    end with "!" nor contain the call-to-action suffix. *)
Lemma urgent_short_output_cut :
  valid urgent_short_request
  /\ tone urgent_short_request = lit "Professional"
  /\ sentiment urgent_short_request = lit "Urgent"
  /\ length urgent_short_request = lit "Short"
  /\ exists o,
      In o (GenerateResponse.outputs
              (generate_content no_database urgent_short_request))
      /\ o = lit "Hi " ++ [em_dash]
             ++ lit " crafted with ContentForge to help you move fast"
      /\ endswith o (lit "!") = false
      /\ contains o (lit "Take the next step today") = false.
Proof.
  repeat split.
  eexists. split; [left; reflexivity|].
  repeat split; vm_compute; reflexivity.
Qed.






(** ** Padding *)

Lemma fillers_firstn (d : Z) :
  (0 < d)%Z ->
  slice_to (Z.max 0 d) fillers = firstn (Z.to_nat (Z.min d 5)) fillers.
Proof.
  intros H. rewrite slice_to_nonneg by lia.
  rewrite Z.max_r by lia. rewrite firstn_capped.
  change (List.length fillers) with (Z.to_nat 5).
  rewrite <- Z2Nat.inj_min. reflexivity.
Qed.

Lemma pad_below (lo : Z) (text : str) :
  (word_count text < lo)%Z ->
  pad lo text
  = text ++ lit " "
    ++ join (lit " ")
         (firstn (Z.to_nat (Z.min (lo - word_count text) 5)) fillers).
Proof.
  intros H. unfold pad.
  destruct (Z.ltb_spec (word_count text) lo); [|lia].
  rewrite fillers_firstn by lia. reflexivity.
Qed.

Lemma pad_reached (lo : Z) (text : str) :
  (lo <= word_count text)%Z -> pad lo text = text.
Proof.
  intros H. unfold pad.
  destruct (Z.ltb_spec (word_count text) lo); [lia | reflexivity].
Qed.

Example pad_two_fillers :
  word_count (assembled nineteen_words_request) = 38%Z
  /\ pad (min_len nineteen_words_request) (assembled nineteen_words_request)
     = assembled nineteen_words_request ++ lit " Learn more. Discover why.".
Proof. split; vm_compute; reflexivity. Qed.

Example pad_all_fillers :
  word_count (assembled sarcastic_request) = 24%Z
  /\ pad (min_len sarcastic_request) (assembled sarcastic_request)
     = assembled sarcastic_request
       ++ lit " Learn more. Discover why. Built for teams."
       ++ lit " Effortless. Reliable.".
Proof. split; vm_compute; reflexivity. Qed.

(** C8: for every valid request, when the word count of the assembled text
    is below [min_len], the composer appends, after a space, the first
    min(min_len - word count, 5) phrases of the fixed list ("Learn more.",
    "Discover why.", "Built for teams.", "Effortless.", "Reliable."), in
    that order and joined by spaces, never more than the five of the list;
    when the word count is at least [min_len] it appends nothing. *)
Theorem padding_rule (payload : GenerateRequest) :
  valid payload ->
  fillers = [ lit "Learn more."; lit "Discover why.";
              lit "Built for teams."; lit "Effortless."; lit "Reliable." ]
  /\ ((word_count (assembled payload) < min_len payload)%Z ->
      pad (min_len payload) (assembled payload)
      = assembled payload ++ lit " "
        ++ join (lit " ")
             (firstn
                (Z.to_nat
                   (Z.min (min_len payload - word_count (assembled payload))
                      5))
                fillers)
      /\ len (firstn
                (Z.to_nat
                   (Z.min (min_len payload - word_count (assembled payload))
                      5))
                fillers)
         = Z.min (min_len payload - word_count (assembled payload)) 5)
  /\ ((min_len payload <= word_count (assembled payload))%Z ->
      pad (min_len payload) (assembled payload) = assembled payload)
  /\ forall i,
      variant payload i
      = slice_to (max_len payload * 2)
          (pad (min_len payload) (assembled payload)).
Proof.
  intros _. split; [reflexivity|]. split; [|split].
  - intros H. split; [apply pad_below; exact H|].
    unfold len. rewrite length_firstn.
    change (List.length fillers) with 5. lia.
  - apply pad_reached.
  - reflexivity.
Qed.

Lemma padding_rule_witness :
  valid nineteen_words_request
  /\ (word_count (assembled nineteen_words_request)
      < min_len nineteen_words_request)%Z
  /\ pad (min_len nineteen_words_request) (assembled nineteen_words_request)
     = assembled nineteen_words_request ++ lit " "
       ++ join (lit " ") (firstn 2 fillers)
  /\ (min_len urgent_short_request
      <= word_count (assembled urgent_short_request))%Z
  /\ pad (min_len urgent_short_request) (assembled urgent_short_request)
     = assembled urgent_short_request.
Proof.
  assert (Hv : valid nineteen_words_request) by (split; reflexivity).
  assert (Hv' : valid urgent_short_request) by (split; reflexivity).
  assert (Hlt : (word_count (assembled nineteen_words_request)
                 < min_len nineteen_words_request)%Z) by reflexivity.
  assert (Hge : (min_len urgent_short_request
                 <= word_count (assembled urgent_short_request))%Z)
    by (vm_compute; discriminate).
  destruct (padding_rule Hv) as (_ & Hpad & _ & _).
  destruct (padding_rule Hv') as (_ & _ & Hkeep & _).
  split; [exact Hv|]. split; [exact Hlt|].
  split; [exact (proj1 (Hpad Hlt))|].
  split; [exact Hge | exact (Hkeep Hge)].
Defined.

(** ** Blank prompts *)

(** C9: for every valid request whose prompt is empty or made of whitespace
    only, [base] is the placeholder "Your product or idea", and no string of
    the outputs sequence is empty. *)
Theorem blank_prompt_placeholder
  (create_document : str -> schemas.Generation -> outcome str)
  (payload : GenerateRequest) :
  valid payload ->
  blank (prompt payload) ->
  base payload = lit "Your product or idea"
  /\ forall o,
      In o (GenerateResponse.outputs
              (generate_content create_document payload)) ->
      o <> [] /\ startswith o (lit "Your product or idea") = true.
Proof.
  intros _ Hb.
  assert (E : base payload = lit "Your product or idea").
  { unfold base. rewrite (strip_whitespace Hb). reflexivity. }
  split; [exact E|]. intros o Ho.
  rewrite generate_content_outputs in Ho.
  rewrite (compose_In _ _ Ho). split.
  - apply variant_nonempty.
  - rewrite (variant_unfold payload 0).
    pose proof (max_len_pos payload) as Hm.
    replace (Z.to_nat (max_len payload * 2))
      with (20 + (Z.to_nat (max_len payload * 2) - 20)) by lia.
    destruct (pad_extends (min_len payload) (assembled payload))
      as [m1 ->].
    destruct (assembled_extends payload) as [m2 ->].
    unfold core. rewrite E, <- !app_assoc.
    rewrite firstn_app_2 with (l1 := lit "Your product or idea").
    apply startswith_app.
Qed.

Lemma blank_prompt_placeholder_witness :
  blank (prompt blank_request)
  /\ base blank_request = lit "Your product or idea"
  /\ forall o,
      In o (GenerateResponse.outputs
              (generate_content working_database blank_request)) ->
      o <> [].
Proof.
  assert (Hv : valid blank_request) by (split; reflexivity).
  assert (Hb : blank (prompt blank_request)).
  { repeat constructor. }
  destruct (@blank_prompt_placeholder working_database blank_request Hv Hb)
    as (Hbase & Hout).
  split; [exact Hb|]. split; [exact Hbase|].
  intros o Ho. exact (proj1 (Hout o Ho)).
Defined.

(** ** Required strings *)




(** * Further properties of the handlers *)

(** ** Trimming *)

Lemma lstrip_blank_app (ws s : str) :
  blank ws -> lstrip (ws ++ s) = lstrip s.
Proof.
  induction 1 as [|c ws Hc _ IH]; simpl.
  - reflexivity.
  - rewrite Hc. exact IH.
Qed.

Lemma lstrip_decompose (s : str) :
  exists ws, blank ws /\ s = ws ++ lstrip s.
Proof.
  induction s as [|c s (ws & Hws & E)]; simpl.
  - exists []. split; [constructor | reflexivity].
  - destruct (isspace c) eqn:Hc.
    + exists (c :: ws). split; [constructor; assumption|].
      simpl. congruence.
    + exists []. split; [constructor | reflexivity].
Qed.

Lemma lstrip_head (s r : str) (c : char) :
  lstrip s = c :: r -> isspace c = false.
Proof.
  induction s as [|a s IH]; simpl; [discriminate|].
  destruct (isspace a) eqn:Ha; [exact IH|].
  intros E. injection E as <- _. exact Ha.
Qed.

Lemma lstrip_nil_blank (s : str) : lstrip s = [] -> blank s.
Proof.
  induction s as [|a s IH]; simpl; [constructor|].
  destruct (isspace a) eqn:Ha; [|discriminate].
  intros E. constructor; [exact Ha | exact (IH E)].
Qed.

Lemma lstrip_app_kept (s t : str) :
  lstrip s <> [] -> lstrip (s ++ t) = lstrip s ++ t.
Proof.
  induction s as [|a s IH]; simpl; [congruence|].
  destruct (isspace a); [exact IH | reflexivity].
Qed.

Lemma rstrip_app_blank (s ws : str) :
  blank ws -> rstrip (s ++ ws) = rstrip s.
Proof.
  intros H. unfold rstrip. rewrite rev_app_distr, lstrip_blank_app.
  - reflexivity.
  - apply Forall_rev. exact H.
Qed.

Lemma rstrip_decompose (s : str) :
  exists ws, blank ws /\ s = rstrip s ++ ws.
Proof.
  destruct (lstrip_decompose (rev s)) as (ws & Hws & E).
  exists (rev ws). split; [apply Forall_rev; exact Hws|].
  unfold rstrip. rewrite <- rev_app_distr, <- E, rev_involutive.
  reflexivity.
Qed.

Lemma strip_surrounded (ws1 s ws2 : str) :
  blank ws1 -> blank ws2 -> strip (ws1 ++ s ++ ws2) = strip s.
Proof.
  intros H1 H2. unfold strip. rewrite (lstrip_blank_app _ H1).
  destruct (lstrip s) as [|c r] eqn:E.
  - rewrite lstrip_whitespace; [reflexivity|].
    apply Forall_app. split; [apply lstrip_nil_blank; exact E | exact H2].
  - rewrite lstrip_app_kept by congruence.
    rewrite E. apply rstrip_app_blank. exact H2.
Qed.

Lemma strip_head (s r : str) (c : char) :
  strip s = c :: r -> isspace c = false.
Proof.
  unfold strip. intros E.
  destruct (rstrip_decompose (lstrip s)) as (ws & _ & D).
  rewrite E in D. simpl in D. exact (lstrip_head _ D).
Qed.

Lemma strip_last (s r : str) (c : char) :
  rev (strip s) = c :: r -> isspace c = false.
Proof.
  unfold strip, rstrip. rewrite rev_involutive. apply lstrip_head.
Qed.

(** ** What the outputs depend on *)

Lemma variant_ext (p1 p2 : GenerateRequest) (i j : Z) :
  base p1 = base p2 -> tone p1 = tone p2 ->
  sentiment p1 = sentiment p2 -> length p1 = length p2 ->
  exclaim p1 = exclaim p2 ->
  variant p1 i = variant p2 j.
Proof.
  intros Hb Ht Hs Hl He.
  unfold variant, assembled, core, guide, suffix, is_urgent,
    tone_voice, sentiment_hint, min_len, max_len.
  rewrite Hb, Ht, Hs, Hl, He. reflexivity.
Qed.

Lemma compose_ext (p1 p2 : GenerateRequest) :
  variant p1 0 = variant p2 0 -> variants p1 = variants p2 ->
  compose p1 = compose p2.
Proof.
  intros Hv Hn. rewrite !compose_repeat, Hv, Hn. reflexivity.
Qed.

Lemma variant_short (payload : GenerateRequest) (i : Z) :
  length payload = lit "Short" ->
  variant payload i = firstn 52 (core payload).
Proof.
  intros Hl. rewrite variant_unfold.
  assert (Hmax : max_len payload = 26%Z).
  { unfold max_len. rewrite Hl. reflexivity. }
  rewrite Hmax. change (Z.to_nat (26 * 2)) with 52.
  apply variant_core. rewrite core_length. lia.
Qed.

Lemma padded_length (payload : GenerateRequest) :
  List.length (core payload)
  <= List.length (pad (min_len payload) (assembled payload)).
Proof.
  destruct (pad_extends (min_len payload) (assembled payload)) as [m1 ->].
  destruct (assembled_extends payload) as [m2 ->].
  rewrite !length_app. lia.
Qed.

Lemma max_len_cases (payload : GenerateRequest) :
  max_len payload = 26%Z \/ max_len payload = 60%Z
  \/ max_len payload = 120%Z.
Proof.
  destruct (length_cases payload) as [H|[H|H]]; inversion H; auto.
Qed.

Lemma variant_length (payload : GenerateRequest) (i : Z) :
  (52 <= len (variant payload i) <= max_len payload * 2)%Z.
Proof.
  rewrite variant_unfold. unfold len. rewrite length_firstn.
  pose proof (padded_length payload) as Hp.
  rewrite core_length in Hp.
  pose proof (max_len_pos payload). lia.
Qed.

Lemma compose_bounds (payload : GenerateRequest) :
  Forall (fun o => (52 <= len o <= max_len payload * 2)%Z
                   /\ (len o <= 240)%Z)
    (compose payload).
Proof.
  rewrite compose_repeat.
  apply Forall_forall. intros o Ho. apply repeat_spec in Ho. subst o.
  pose proof (variant_length payload 0) as H.
  destruct (max_len_cases payload) as [E|[E|E]]; rewrite E in *; lia.
Qed.

(** X1: whatever the request and the store, every output string has at
    least 52 and at most 2 * max_len characters, hence never more than
    240. *)
Theorem output_length_bounds
  (create_document : str -> schemas.Generation -> outcome str)
  (payload : GenerateRequest) :
  Forall (fun o => (52 <= len o <= max_len payload * 2)%Z
                   /\ (len o <= 240)%Z)
    (GenerateResponse.outputs (generate_content create_document payload)).
Proof.
  rewrite generate_content_outputs. apply compose_bounds.
Qed.

(** X2: a length that is none of Short, Medium, Long (a case variant
    included) is not rejected: it gets the Medium targets (40, 60), and
    every output has between 52 and 120 characters. *)
Theorem unknown_length_medium
  (create_document : str -> schemas.Generation -> outcome str)
  (payload : GenerateRequest) :
  ~ In (length payload) length_presets ->
  min_len payload = 40%Z /\ max_len payload = 60%Z
  /\ Forall (fun o => (52 <= len o <= 120)%Z)
       (GenerateResponse.outputs
          (generate_content create_document payload)).
Proof.
  intros H.
  assert (E : dict_get length_map (length payload) (40, 60)%Z
              = (40, 60)%Z).
  { unfold length_map, dict_get.
    repeat match goal with
           | |- context [str_eq_dec ?a ?b] =>
               destruct (str_eq_dec a b) as [E|_];
               [exfalso; apply H; rewrite <- E; simpl; tauto|]
           end.
    reflexivity. }
  assert (Hmin : min_len payload = 40%Z) by (unfold min_len; now rewrite E).
  assert (Hmax : max_len payload = 60%Z) by (unfold max_len; now rewrite E).
  split; [exact Hmin|]. split; [exact Hmax|].
  rewrite generate_content_outputs.
  pose proof (compose_bounds payload) as Hb.
  rewrite Hmax in Hb. eapply Forall_impl; [|exact Hb].
  simpl. intros o [Ho _]. exact Ho.
Qed.

Lemma unknown_length_medium_witness :
  max_len lowercase_length_request = 60%Z
  /\ Forall (fun o => (52 <= len o <= 120)%Z)
       (GenerateResponse.outputs
          (generate_content working_database lowercase_length_request)).
Proof.
  assert (H : ~ In (length lowercase_length_request) length_presets).
  { simpl. intros [H|[H|[H|[]]]]; discriminate. }
  destruct (@unknown_length_medium working_database
              lowercase_length_request H) as (_ & Hmax & Hall).
  split; [exact Hmax | exact Hall].
Defined.

(** X3: whitespace around the prompt does not reach the outputs: two
    requests that differ only by whitespace before and after the prompt
    have the same outputs. *)
Theorem prompt_whitespace_ignored
  (create_document : str -> schemas.Generation -> outcome str)
  (p1 p2 : GenerateRequest) (ws1 ws2 : str) :
  blank ws1 -> blank ws2 ->
  prompt p1 = ws1 ++ prompt p2 ++ ws2 ->
  tone p1 = tone p2 -> sentiment p1 = sentiment p2 ->
  length p1 = length p2 -> creativity p1 = creativity p2 ->
  variants p1 = variants p2 ->
  GenerateResponse.outputs (generate_content create_document p1)
  = GenerateResponse.outputs (generate_content create_document p2).
Proof.
  intros H1 H2 Hp Ht Hs Hl Hc Hv.
  rewrite !generate_content_outputs.
  apply compose_ext; [|exact Hv].
  apply variant_ext; try assumption.
  - unfold base. rewrite Hp, (strip_surrounded _ H1 H2). reflexivity.
  - unfold exclaim, is_urgent. rewrite Hs, Hc. reflexivity.
Qed.

Lemma prompt_whitespace_ignored_witness :
  GenerateResponse.outputs
    (generate_content no_database lowercase_length_request)
  = GenerateResponse.outputs
      (generate_content no_database spring_sale_request).
Proof.
  apply (@prompt_whitespace_ignored no_database lowercase_length_request
           spring_sale_request (lit "  ") (lit "  "));
    try reflexivity; repeat constructor.
Defined.

Lemma no_blank_affix (s r r' : str) (c c' : char) :
  s = c :: r -> isspace c = false ->
  rev s = c' :: r' -> isspace c' = false ->
  forall ws rest,
    blank ws -> s = ws ++ rest \/ s = rest ++ ws -> ws = [].
Proof.
  intros Hs Hc Hr Hc' ws rest Hws [E|E].
  - destruct ws as [|a ws]; [reflexivity|].
    rewrite Hs in E. injection E as -> _.
    inversion Hws; subst. congruence.
  - destruct (rev ws) as [|a ws'] eqn:Ew.
    + rewrite <- (rev_involutive ws), Ew. reflexivity.
    + rewrite E, rev_app_distr, Ew in Hr. injection Hr as -> _.
      assert (Hin : In c' ws).
      { apply in_rev. rewrite Ew. left. reflexivity. }
      unfold blank in Hws. rewrite Forall_forall in Hws.
      specialize (Hws _ Hin). congruence.
Qed.

(** X4: [base], the prompt as it enters the text, is never empty and has
    no whitespace at either end. *)
Theorem base_trimmed (payload : GenerateRequest) :
  base payload <> []
  /\ forall ws rest,
      blank ws ->
      base payload = ws ++ rest \/ base payload = rest ++ ws ->
      ws = [].
Proof.
  split; [apply base_nonempty|].
  unfold base.
  destruct (strip (prompt payload)) as [|c r] eqn:E; simpl.
  - apply no_blank_affix
      with (c := 89%N) (r := tl placeholder)
           (c' := 97%N) (r' := tl (rev placeholder)); reflexivity.
  - destruct (rev (c :: r)) as [|c' r'] eqn:Er.
    + apply (f_equal (@List.length _)) in Er.
      rewrite length_rev in Er. discriminate.
    + apply no_blank_affix with (c := c) (r := r) (c' := c') (r' := r').
      * reflexivity.
      * exact (strip_head _ E).
      * exact Er.
      * rewrite <- E in Er. exact (strip_last _ Er).
Qed.

(** X5: creativity reaches the outputs through the test [> 0.6] only, and
    not at all when the sentiment is Urgent: two requests that differ only
    in creativity have the same outputs when both are on the same side of
    the threshold, or when the sentiment is Urgent. *)
Theorem creativity_only_threshold
  (create_document : str -> schemas.Generation -> outcome str)
  (p1 p2 : GenerateRequest) :
  prompt p1 = prompt p2 -> tone p1 = tone p2 ->
  sentiment p1 = sentiment p2 -> length p1 = length p2 ->
  variants p1 = variants p2 ->
  sentiment p1 = lit "Urgent"
  \/ float_gt (creativity p1) creativity_threshold
     = float_gt (creativity p2) creativity_threshold ->
  GenerateResponse.outputs (generate_content create_document p1)
  = GenerateResponse.outputs (generate_content create_document p2).
Proof.
  intros Hp Ht Hs Hl Hv Hc.
  rewrite !generate_content_outputs.
  apply compose_ext; [|exact Hv].
  apply variant_ext; try assumption.
  - unfold base. rewrite Hp. reflexivity.
  - unfold exclaim.
    assert (Hu : is_urgent p1 = is_urgent p2).
    { unfold is_urgent. rewrite Hs. reflexivity. }
    rewrite <- Hu. destruct Hc as [Hurgent|Hsame].
    + apply is_urgent_iff in Hurgent. rewrite Hurgent. reflexivity.
    + rewrite Hsame. reflexivity.
Qed.

Lemma creativity_only_threshold_witness :
  GenerateResponse.outputs
    (generate_content no_database spring_sale_request)
  = GenerateResponse.outputs
      (generate_content no_database
         {| prompt := lit "Spring sale"; tone := lit "Casual";
            sentiment := lit "Neutral"; length := lit "short";
            creativity := 0x1p+0%float; variants := 3 |}).
Proof.
  apply (@creativity_only_threshold no_database spring_sale_request
           {| prompt := lit "Spring sale"; tone := lit "Casual";
              sentiment := lit "Neutral"; length := lit "short";
              creativity := 0x1p+0%float; variants := 3 |});
    try reflexivity.
  right. reflexivity.
Defined.

(** X6: for the Short length the outputs carry nothing of the tone, the
    sentiment or the creativity: each is the first 52 characters of
    ["{base} — crafted with ContentForge to help you move faster."], so two
    Short requests with the same trimmed prompt and the same variants have
    the same outputs. *)
Theorem short_outputs_ignore_style
  (create_document : str -> schemas.Generation -> outcome str)
  (p1 p2 : GenerateRequest) :
  length p1 = lit "Short" -> length p2 = lit "Short" ->
  strip (prompt p1) = strip (prompt p2) ->
  variants p1 = variants p2 ->
  GenerateResponse.outputs (generate_content create_document p1)
  = GenerateResponse.outputs (generate_content create_document p2)
  /\ Forall (fun o => o = firstn 52 (core p1) /\ len o = 52%Z)
       (GenerateResponse.outputs (generate_content create_document p1)).
Proof.
  intros H1 H2 Hp Hv. rewrite !generate_content_outputs. split.
  - apply compose_ext; [|exact Hv].
    rewrite (variant_short _ 0 H1), (variant_short _ 0 H2).
    unfold core, base. rewrite Hp. reflexivity.
  - rewrite compose_repeat. apply Forall_forall. intros o Ho.
    apply repeat_spec in Ho. subst o.
    split; [apply (variant_short _ 0 H1)|].
    rewrite (variant_short _ 0 H1). unfold len.
    rewrite length_firstn, core_length. lia.
Qed.

Lemma short_outputs_ignore_style_witness :
  GenerateResponse.outputs
    (generate_content no_database urgent_short_request)
  = GenerateResponse.outputs
      (generate_content no_database
         {| prompt := lit " Hi"; tone := lit "Playful";
            sentiment := lit "Positive"; length := lit "Short";
            creativity := 0x1p+0%float; variants := 2 |}).
Proof.
  apply (@short_outputs_ignore_style no_database urgent_short_request
           {| prompt := lit " Hi"; tone := lit "Playful";
              sentiment := lit "Positive"; length := lit "Short";
              creativity := 0x1p+0%float; variants := 2 |});
    reflexivity.
Defined.

(** ** Words gained by padding *)

Lemma split_from_app_space (cur a b : str) (sp : char) :
  isspace sp = true ->
  split_from cur (a ++ sp :: b) = split_from cur a ++ split b.
Proof.
  intros Hsp. revert cur.
  induction a as [|c a IH]; intros cur; simpl.
  - rewrite Hsp. destruct cur; reflexivity.
  - destruct (isspace c).
    + destruct cur; rewrite IH; reflexivity.
    + apply IH.
Qed.

Lemma word_count_app_space (a b : str) :
  word_count (a ++ lit " " ++ b) = (word_count a + word_count b)%Z.
Proof.
  unfold word_count, len, split. simpl.
  rewrite split_from_app_space by reflexivity.
  rewrite length_app. unfold split. lia.
Qed.

(** The words of the first [k] fillers, joined by spaces. *)
Lemma fillers_words (k : nat) :
  1 <= k <= 5 ->
  (Z.of_nat k <= word_count (join (lit " ") (firstn k fillers)) <= 9)%Z.
Proof.
  intros H.
  assert (E : k = 1 \/ k = 2 \/ k = 3 \/ k = 4 \/ k = 5) by lia.
  destruct E as [->|[->|[->|[->| ->]]]]; vm_compute; split; discriminate.
Qed.

(** X7: padding adds at least one word per missing word up to five, and
    never more than nine words in all: a text that lacks at most five words
    reaches [min_len], while a text that lacks more than nine stays below
    it. *)
Theorem pad_word_count (lo : Z) (text : str) :
  (word_count text < lo)%Z ->
  (word_count text < word_count (pad lo text) <= word_count text + 9)%Z
  /\ ((lo - word_count text <= 5)%Z -> (lo <= word_count (pad lo text))%Z)
  /\ ((9 < lo - word_count text)%Z -> (word_count (pad lo text) < lo)%Z).
Proof.
  intros H. rewrite (@pad_below _ _ H), word_count_app_space.
  pose proof (@fillers_words (Z.to_nat (Z.min (lo - word_count text) 5)))
    as Hw.
  assert (Hk : 1 <= Z.to_nat (Z.min (lo - word_count text) 5) <= 5)
    by lia.
  specialize (Hw Hk). repeat split; lia.
Qed.

Lemma pad_word_count_witness :
  (word_count (assembled nineteen_words_request) < 40)%Z
  /\ (40 <= word_count (pad 40 (assembled nineteen_words_request)))%Z
  /\ (word_count (assembled blank_request) < 80)%Z
  /\ (word_count (pad 80 (assembled blank_request)) < 80)%Z.
Proof.
  assert (H1 : (word_count (assembled nineteen_words_request) < 40)%Z)
    by reflexivity.
  assert (H2 : (word_count (assembled blank_request) < 80)%Z)
    by reflexivity.
  destruct (@pad_word_count 40 (assembled nineteen_words_request) H1)
    as (_ & Hreach & _).
  destruct (@pad_word_count 80 (assembled blank_request) H2)
    as (_ & _ & Hbelow).
  split; [exact H1|]. split; [|split; [exact H2|]].
  - apply Hreach. vm_compute. discriminate.
  - apply Hbelow. reflexivity.
Defined.

(** ** Persistence *)

(** X8: for a valid request the stored-model constructor of the [try]
    block never raises, so the identifier of the response is the one
    [create_document] returns whenever it returns, and the sentinel "no-db"
    only when it raises. *)
Theorem stored_identifier
  (create_document : str -> schemas.Generation -> outcome str)
  (payload : GenerateRequest) :
  valid payload ->
  GenerateResponse.id (generate_content create_document payload)
  = match create_document (lit "generation")
            (generation_doc payload (compose payload)) with
    | Return inserted_id => inserted_id
    | Raise _ => lit "no-db"
    end.
Proof.
  intros H. unfold generate_content. simpl.
  rewrite (generation_doc_accepted _ H). simpl.
  destruct (create_document _ _); reflexivity.
Qed.

Lemma stored_identifier_witness :
  GenerateResponse.id (generate_content working_database blank_request)
  = lit "65f1c0ffee".
Proof.
  rewrite (@stored_identifier working_database blank_request).
  - reflexivity.
  - split; reflexivity.
Defined.

(** ** Validation and the endpoint *)

Lemma field_errors_nil_in_range (raw : RawRequest) :
  field_errors raw = [] -> in_range raw.
Proof.
  unfold field_errors. intros E.
  do 3 (apply app_eq_nil in E; destruct E as [_ E]).
  apply app_eq_nil in E. destruct E as [Ec Ev]. split.
  - intros c Hc. rewrite Hc in Ec. now apply creativity_errors_nil.
  - intros v Hv. rewrite Hv in Ev. now apply variants_errors_nil.
Qed.

(** X9: a body whose fields are each absent or of the declared type is
    accepted exactly when [prompt], [tone] and [sentiment] are present and
    the numeric fields that are present are in range; a rejection always
    carries at least one error. *)
Theorem validate_accepts_iff (raw : RawRequest) :
  ((exists payload, validate raw = inr payload)
   <-> (raw_prompt raw <> None /\ raw_tone raw <> None
        /\ raw_sentiment raw <> None /\ in_range raw))
  /\ forall errs, validate raw = inl errs -> errs <> [].
Proof.
  split; [split|].
  - intros [payload H].
    destruct (field_errors raw) as [|e errs] eqn:E.
    + destruct (validate_clean _ E) as (p & t & s & Hp & Ht & Hs & _).
      rewrite Hp, Ht, Hs. do 3 (split; [discriminate|]).
      apply field_errors_nil_in_range. exact E.
    + rewrite validate_errors in H; [discriminate | congruence].
  - intros (Hp & Ht & Hs & Hr).
    destruct (raw_prompt raw) as [p|] eqn:Ep; [|congruence].
    destruct (raw_tone raw) as [t|] eqn:Et; [|congruence].
    destruct (raw_sentiment raw) as [s|] eqn:Es; [|congruence].
    eexists. apply (in_range_accepts Hr Ep Et Es).
  - intros errs H Hnil. subst errs.
    destruct (field_errors raw) as [|e errs] eqn:E.
    + destruct (validate_clean _ E) as (p & t & s & _ & _ & _ & Hv).
      congruence.
    + rewrite validate_errors in H by congruence.
      rewrite E in H. discriminate.
Qed.

(** X10: validation and [body_of] round-trip: a model is valid exactly when
    the body carrying its fields validates to it, and validating again the
    fields of an accepted model returns the same model. *)
Theorem validation_round_trip (payload : GenerateRequest) :
  (valid payload <-> validate (body_of payload) = inr payload)
  /\ forall raw,
      validate raw = inr payload ->
      validate (body_of payload) = inr payload.
Proof.
  split; [split|].
  - apply valid_validate.
  - apply validate_valid.
  - intros raw H. apply valid_validate. exact (validate_valid _ H).
Qed.



(** X12: a body that carries only the three required strings is accepted
    with length "Medium", creativity 0.35 and one variant: the response has
    exactly one output, of at most 120 characters, and the punctuation
    chosen is "!" exactly when the sentiment is "Urgent". *)
Theorem defaults_applied
  (create_document : str -> schemas.Generation -> outcome str)
  (raw : RawRequest) (p t s : str) :
  raw_prompt raw = Some p -> raw_tone raw = Some t ->
  raw_sentiment raw = Some s ->
  raw_length raw = None -> raw_creativity raw = None ->
  raw_variants raw = None ->
  exists payload,
    validate raw = inr payload
    /\ payload = {| prompt := p; tone := t; sentiment := s;
                    length := lit "Medium";
                    creativity := default_creativity; variants := 1 |}
    /\ (exists o,
          GenerateResponse.outputs
            (generate_content create_document payload) = [o]
          /\ (len o <= 120)%Z)
    /\ (exclaim payload = lit "!" <-> s = lit "Urgent").
Proof.
  intros Hp Ht Hs Hl Hc Hv.
  assert (Hr : in_range raw).
  { split; intros x Hx; congruence. }
  pose proof (in_range_accepts Hr Hp Ht Hs) as H.
  rewrite Hl, Hc, Hv in H. simpl in H.
  eexists. split; [exact H|]. split; [reflexivity|]. split.
  - rewrite generate_content_outputs, compose_repeat. simpl.
    eexists. split; [reflexivity|].
    match goal with |- (len (variant ?q 0) <= _)%Z =>
      pose proof (variant_length q 0) as Hb;
      assert (Hm : max_len q = 60%Z) by reflexivity
    end.
    rewrite Hm in Hb. lia.
  - unfold exclaim. rewrite <- is_urgent_iff with
      (payload := {| prompt := p; tone := t; sentiment := s;
                     length := lit "Medium";
                     creativity := default_creativity; variants := 1 |}).
    change (float_gt (creativity _) creativity_threshold)
      with false at 1.
    rewrite orb_false_r.
    destruct (is_urgent _); split; intros E;
      try reflexivity; try discriminate.
Qed.

Lemma defaults_applied_witness :
  exists payload,
    validate strings_only_body = inr payload
    /\ variants payload = 1%Z /\ length payload = lit "Medium".
Proof.
  destruct (@defaults_applied no_database strings_only_body
              (lit "Spring sale") (lit "Casual") (lit "Urgent")
              eq_refl eq_refl eq_refl eq_refl eq_refl eq_refl)
    as (payload & Hv & -> & _).
  eexists. split; [exact Hv|]. split; reflexivity.
Defined.

(** ** The listing of recent items *)

Lemma doc_get_absent (d : document) (key : str) (default : pyval) :
  (forall k v, In (k, v) d -> k <> key) -> doc_get d key default = default.
Proof.
  induction d as [|[k v] d IH]; simpl; intros H; [reflexivity|].
  destruct (str_eq_dec k key) as [E|_].
  - exfalso. apply (H k v); auto.
  - apply IH. intros k' v' Hin. apply (H k' v'). auto.
Qed.

Lemma recent_item_well_dated (d : document) :
  well_dated d = true ->
  exists it,
    recent_item d = Return it
    /\ RecentItem.id it = py_str (doc_get d (lit "_id") PNone)
    /\ RecentItem.prompt it
       = doc_get d (lit "prompt") (PStr (lit "Untitled"))
    /\ (RecentItem.created_at it = None
        <-> truthy (doc_get d (lit "created_at") PNone) = false).
Proof.
  unfold well_dated, recent_item. intros H.
  destruct (doc_get d (lit "created_at") PNone) as [|s|i|hex|dt] eqn:E;
    simpl in *.
  - eexists. repeat split; reflexivity.
  - destruct s; simpl in *; [|discriminate].
    eexists. repeat split; reflexivity.
  - destruct (i =? 0)%Z; simpl in *; [|discriminate].
    eexists. repeat split; reflexivity.
  - discriminate.
  - eexists. repeat split; simpl; discriminate.
Qed.

Lemma recent_item_ill_dated (d : document) :
  well_dated d = false -> exists e, recent_item d = Raise e.
Proof.
  unfold well_dated, recent_item. intros H.
  destruct (doc_get d (lit "created_at") PNone) as [|s|i|hex|dt];
    simpl in *; try discriminate.
  - destruct s; simpl in *; [discriminate|]. eexists. reflexivity.
  - destruct (i =? 0)%Z; simpl in *; [discriminate|].
    eexists. reflexivity.
  - eexists. reflexivity.
Qed.

Lemma recent_loop_cons (d : document) (docs : list document) :
  recent_loop [] (d :: docs)
  = bind (recent_item d)
      (fun it => bind (recent_loop [] docs)
                   (fun its => Return (it :: its))).
Proof.
  simpl. destruct (recent_item d) as [it|e]; simpl; [|reflexivity].
  apply recent_loop_acc.
Qed.

Lemma recent_loop_well_dated (docs : list document) :
  forallb well_dated docs = true ->
  exists its,
    recent_loop [] docs = Return its
    /\ Forall2
         (fun d it =>
            RecentItem.id it = py_str (doc_get d (lit "_id") PNone)
            /\ RecentItem.prompt it
               = doc_get d (lit "prompt") (PStr (lit "Untitled"))
            /\ (RecentItem.created_at it = None
                <-> truthy (doc_get d (lit "created_at") PNone) = false))
         docs its.
Proof.
  induction docs as [|d docs IH]; intros H.
  - exists []. split; [reflexivity | constructor].
  - simpl in H. apply andb_prop in H. destruct H as [Hd Hr].
    destruct (recent_item_well_dated _ Hd) as (it & Hit & Hfields).
    destruct (IH Hr) as (its & Hits & Hall).
    exists (it :: its). split.
    + rewrite recent_loop_cons, Hit. simpl. rewrite Hits. reflexivity.
    + constructor; assumption.
Qed.

Lemma recent_loop_ill_dated (docs : list document) :
  forallb well_dated docs = false ->
  exists e, recent_loop [] docs = Raise e.
Proof.
  induction docs as [|d docs IH]; intros H; [discriminate|].
  simpl in H. rewrite recent_loop_cons.
  destruct (well_dated d) eqn:Hd; simpl in H.
  - destruct (recent_item_well_dated _ Hd) as (it & -> & _).
    destruct (IH H) as (e & ->). exists e. reflexivity.
  - destruct (recent_item_ill_dated _ Hd) as (e & ->).
    exists e. reflexivity.
Qed.

(** X13: when the store returns documents, the listing is all or nothing.
    If every document has a missing, falsy or datetime [created_at], the
    result has one item per document, in the store's order and however many
    the store returned, with [id] the string of [_id], [prompt] defaulting
    to "Untitled", and [created_at] null exactly for a missing or falsy
    value.  If one document has any other [created_at], the whole result is
    the three fallback items. *)
Theorem recent_all_or_nothing
  (get_recent_documents : str -> Z -> outcome (list document))
  (limit : Z) (docs : list document) :
  get_recent_documents (lit "generation") limit = Return docs ->
  (forallb well_dated docs = true ->
   Forall2
     (fun d it =>
        RecentItem.id it = py_str (doc_get d (lit "_id") PNone)
        /\ RecentItem.prompt it
           = doc_get d (lit "prompt") (PStr (lit "Untitled"))
        /\ (RecentItem.created_at it = None
            <-> truthy (doc_get d (lit "created_at") PNone) = false))
     docs (recent_generations get_recent_documents limit)
   /\ len (recent_generations get_recent_documents limit) = len docs)
  /\ (forallb well_dated docs = false ->
      recent_generations get_recent_documents limit = fallback_items).
Proof.
  intros H. split; intros Hd.
  - destruct (recent_loop_well_dated _ Hd) as (its & Hits & Hall).
    assert (E : recent_generations get_recent_documents limit = its).
    { unfold recent_generations. rewrite H. simpl. rewrite Hits.
      reflexivity. }
    rewrite E. split; [exact Hall|].
    unfold len. rewrite (Forall2_length Hall). reflexivity.
  - destruct (recent_loop_ill_dated _ Hd) as (e & He).
    apply recent_generations_raise with (e := e).
    rewrite H. exact He.
Qed.

Lemma recent_all_or_nothing_witness :
  len (recent_generations
         (fun _ _ => Return [stored_tweet; bare_document]) 1) = 2%Z
  /\ recent_generations
       (fun _ _ => Return [stored_tweet; malformed_tweet]) 9
     = fallback_items.
Proof.
  destruct (@recent_all_or_nothing
              (fun _ _ => Return [stored_tweet; bare_document]) 1
              [stored_tweet; bare_document] eq_refl) as (Hall & _).
  destruct (@recent_all_or_nothing
              (fun _ _ => Return [stored_tweet; malformed_tweet]) 9
              [stored_tweet; malformed_tweet] eq_refl) as (_ & Hnone).
  split.
  - exact (proj2 (Hall eq_refl)).
  - exact (Hnone eq_refl).
Defined.

(** X14: a stored document with none of the keys [_id], [prompt],
    [created_at] is listed, not rejected: its item has id "None", prompt
    "Untitled" and no timestamp. *)
Theorem recent_item_missing_keys (d : document) :
  (forall k v, In (k, v) d -> ~ In k listing_keys) ->
  recent_item d
  = Return {| RecentItem.id := lit "None";
              RecentItem.prompt := PStr (lit "Untitled");
              RecentItem.created_at := None |}.
Proof.
  intros H. unfold recent_item.
  rewrite !doc_get_absent; [reflexivity| | |];
    intros k v Hin E; apply (H k v Hin); rewrite E; simpl; tauto.
Qed.

Lemma recent_item_missing_keys_witness :
  recent_item bare_document
  = Return {| RecentItem.id := lit "None";
              RecentItem.prompt := PStr (lit "Untitled");
              RecentItem.created_at := None |}.
Proof.
  apply (@recent_item_missing_keys bare_document).
  intros k v [E|[]]. injection E as <- _.
  simpl. intros [H|[H|[H|[]]]]; discriminate.
Defined.

(** ** The diagnostic endpoint *)

Lemma slice_to_length {A} (k : Z) (l : list A) :
  (0 <= k)%Z -> (len (slice_to k l) <= k)%Z.
Proof.
  intros H. rewrite slice_to_nonneg by exact H.
  unfold len. rewrite length_firstn. lia.
Qed.

(** X15: the two configuration fields of the diagnostic report depend on
    the environment alone: whatever the import of [db] does, and whatever
    the handle's name, [database_url] and [database_name] end as "Set" or
    "Not Set", and a variable set to the empty string counts as not set. *)
Theorem diagnostic_environment_fields
  (imp : db_import) (getenv : str -> option str) :
  database_url (test_database imp getenv)
  = Some (env_status (getenv (lit "DATABASE_URL")))
  /\ database_name (test_database imp getenv)
     = Some (env_status (getenv (lit "DATABASE_NAME")))
  /\ (forall v,
        env_status v = check_mark ++ lit " Set"
        <-> exists c rest, v = Some (c :: rest))
  /\ (forall v,
        env_status v = cross_mark ++ lit " Not Set"
        <-> v = None \/ v = Some []).
Proof.
  split; [reflexivity|]. split; [reflexivity|]. split.
  - intros [[|c rest]|]; simpl; split; intros H;
      try discriminate; try (destruct H as (? & ? & ?); discriminate).
    + exists c, rest. reflexivity.
    + reflexivity.
  - intros [[|c rest]|]; simpl; split; intros H;
      try discriminate; auto;
      destruct H as [H|H]; discriminate.
Qed.

(** X16: the report lists at most ten collections, the first ten of the
    listing, and lists any only when the listing succeeded, in which case
    the database status is "Connected & Working". *)
Theorem diagnostic_collections
  (imp : db_import) (getenv : str -> option str) :
  (len (collections (test_database imp getenv)) <= 10)%Z
  /\ (forall db cols,
        imp = imported (Some db) ->
        list_collection_names db = Return cols ->
        collections (test_database imp getenv) = firstn 10 cols
        /\ database (test_database imp getenv)
           = check_mark ++ lit " Connected & Working")
  /\ (collections (test_database imp getenv) <> [] ->
      database (test_database imp getenv)
      = check_mark ++ lit " Connected & Working").
Proof.
  split; [|split].
  - destruct imp as [|e|[db|]]; simpl; try (unfold len; simpl; lia).
    unfold probe_handle.
    destruct (list_collection_names db) as [cols|e]; simpl.
    + apply slice_to_length. lia.
    + unfold len. simpl. lia.
  - intros db cols -> Hl. simpl. unfold probe_handle. rewrite Hl.
    split; reflexivity.
  - destruct imp as [|e|[db|]]; simpl; try congruence.
    unfold probe_handle.
    destruct (list_collection_names db) as [cols|e]; simpl;
      [reflexivity | congruence].
Qed.

(** X17: the report says "Connected" exactly when the import bound [db] to
    a handle, also when listing the collections then raised; otherwise it
    says "Not Connected".  The backend field is always "Running". *)
Theorem diagnostic_connection_status
  (imp : db_import) (getenv : str -> option str) :
  (connection_status (test_database imp getenv) = lit "Connected"
   <-> exists db, imp = imported (Some db))
  /\ (connection_status (test_database imp getenv) = lit "Connected"
      \/ connection_status (test_database imp getenv)
         = lit "Not Connected")
  /\ backend (test_database imp getenv) = check_mark ++ lit " Running".
Proof.
  destruct imp as [|e|[db|]]; simpl.
  1, 2, 4: split; [split; [discriminate | intros [? ?]; discriminate]|];
           split; [right|]; reflexivity.
  unfold probe_handle.
  destruct (list_collection_names db); simpl;
    (split; [split; [eauto | reflexivity]|]);
    split; [left| |left|]; reflexivity.
Qed.

Lemma cut_message_length (prefix message : str) :
  (len (prefix ++ slice_to 50 message) <= len prefix + 50)%Z.
Proof.
  pose proof (@slice_to_length _ 50 message) as H.
  unfold len in *. rewrite length_app. lia.
Qed.

(** X18: the database status never exceeds 75 characters: an error message
    of any length enters it cut to its first 50 characters. *)
Theorem diagnostic_status_bounded
  (imp : db_import) (getenv : str -> option str) :
  (len (database (test_database imp getenv)) <= 75)%Z
  /\ (forall e,
        imp = import_raises e ->
        database (test_database imp getenv)
        = cross_mark ++ lit " Error: " ++ firstn 50 (exn_str e))
  /\ (forall db e,
        imp = imported (Some db) ->
        list_collection_names db = Raise e ->
        database (test_database imp getenv)
        = warning_sign ++ lit "  Connected but Error: "
          ++ firstn 50 (exn_str e)).
Proof.
  split; [|split].
  - destruct imp as [|e|[db|]].
    + vm_compute. discriminate.
    + change (database (test_database (import_raises e) getenv))
        with ((cross_mark ++ lit " Error: ") ++ slice_to 50 (exn_str e)).
      pose proof (cut_message_length (cross_mark ++ lit " Error: ")
                    (exn_str e)) as H.
      change (len (cross_mark ++ lit " Error: ")) with 9%Z in H. lia.
    + change (database (test_database (imported (Some db)) getenv))
        with (database (probe_handle db initial_response)).
      unfold probe_handle.
      destruct (list_collection_names db) as [cols|e].
      * vm_compute. discriminate.
      * change (database _)
          with ((warning_sign ++ lit "  Connected but Error: ")
                ++ slice_to 50 (exn_str e)).
        pose proof (cut_message_length
                      (warning_sign ++ lit "  Connected but Error: ")
                      (exn_str e)) as H.
        change (len (warning_sign ++ lit "  Connected but Error: "))
          with 25%Z in H. lia.
    + vm_compute. discriminate.
  - intros e ->. reflexivity.
  - intros db e -> Hl. simpl. unfold probe_handle. rewrite Hl.
    reflexivity.
Qed.

(** ** Range errors that render *)


